(** * view_database.py: the ATM database report

    A shallow embedding of [src/view_database.py], a script that opens the
    SQLite store [data/atm_database.db], runs five [SELECT] queries and
    prints each result set as a column-aligned text report.

    The file is organised as follows:
    - [Py]       the Python values a [sqlite3] row can hold and the
                 [str.format] mini-language the script uses;
    - the five tables and the five queries;
    - the script itself, in a state-and-exception monad over the store,
      the connection and standard output;
    - the properties of the report. *)

From Stdlib Require Import ZArith NArith Lia List Bool String Ascii.
From Stdlib Require Import Sorting.Sorted Sorting.Permutation.
Import ListNotations.

Local Open Scope string_scope.
Local Open Scope Z_scope.

(* ===================================================================== *)
(** ** Python values and formatting *)
(* ===================================================================== *)

Module Py.

(** The exceptions the script can raise. *)
Inductive exn : Type :=
| OperationalError   (* sqlite3: cannot open the file, no such table *)
| TypeError          (* unsupported format string passed to X.__format__ *)
| ValueError         (* Unknown format code 'c' for object of type 'T' *)
| OverflowError.     (* int too large to convert to float *)

Inductive result (A : Type) : Type :=
| Ok (a : A)
| Raised (e : exn).
Arguments Ok {A} a.
Arguments Raised {A} e.

Definition rbind {A B} (r : result A) (k : A -> result B) : result B :=
  match r with
  | Ok a => k a
  | Raised e => Raised e
  end.

(** A Python [float] that SQLite can return: a finite binary number
    [(-1)^neg * m * 2^e], or an infinity.  SQLite stores a NaN as NULL, so
    a REAL column never yields one. *)
Inductive float : Type :=
| Finite (neg : bool) (m : N) (e : Z)
| Infinity (neg : bool).

(** The value of one column of a [sqlite3] row: the five storage classes
    of SQLite as the [sqlite3] module converts them
    (NULL, INTEGER, REAL, TEXT, BLOB to None, int, float, str, bytes).
    Characters of a [str] are taken in the 8-bit range. *)
Inductive value : Type :=
| VNone
| VInt (z : Z)
| VFloat (x : float)
| VStr (s : string)
| VBytes (b : list ascii).

(** Truth value of an object, as [x if x else y] tests it. *)
Definition truthy (v : value) : bool :=
  match v with
  | VNone => false
  | VInt z => negb (z =? 0)
  | VFloat (Finite _ m _) => negb (m =? 0)%N
  | VFloat (Infinity _) => true
  | VStr s => negb (String.length s =? 0)%nat
  | VBytes b => negb (List.length b =? 0)%nat
  end.

(** *** Decimal digits *)

Definition digit (d : N) : ascii := ascii_of_N (48 + d mod 10).

Fixpoint digits_aux (fuel : nat) (n : N) (acc : string) : string :=
  match fuel with
  | O => acc
  | S fuel' =>
      let acc' := String (digit n) acc in
      if (n <? 10)%N then acc' else digits_aux fuel' (n / 10) acc'
  end.

(** [str(n)] for a natural number; the fuel is the bit size of [n], which
    bounds the number of its decimal digits. *)
Definition digits (n : N) : string :=
  digits_aux (S (N.to_nat (N.log2 n))) n EmptyString.

Definition str_int (z : Z) : string :=
  if z <? 0 then "-" ++ digits (Z.abs_N z) else digits (Z.abs_N z).

(** *** Padding: the [width] and alignment of a format spec *)

Fixpoint spaces (n : nat) : string :=
  match n with
  | O => EmptyString
  | S n' => String " " (spaces n')
  end.

(** [format(s, '<w')]: the default alignment of a [str]. *)
Definition ljust (w : nat) (s : string) : string :=
  s ++ spaces (w - String.length s).

(** [format(s, '>w')]: the default alignment of a number. *)
Definition rjust (w : nat) (s : string) : string :=
  spaces (w - String.length s) ++ s.

(** *** The [,] option: groups of three digits *)

Fixpoint group_rev (l : list ascii) : list ascii :=
  match l with
  | a :: b :: c :: (_ :: _) as rest => a :: b :: c :: ","%char :: group_rev rest
  | _ => l
  end.

Definition group3 (s : string) : string :=
  string_of_list_ascii (rev (group_rev (rev (list_ascii_of_string s)))).

(** *** Fixed-point notation with two decimals: the [.2f] presentation *)

(** [num / den] rounded to the nearest integer, ties to even. *)
Definition round_half_even (num den : N) : N :=
  let q := (num / den)%N in
  let r := (num mod den)%N in
  match (2 * r ?= den)%N with
  | Lt => q
  | Gt => (q + 1)%N
  | Eq => if N.even q then q else (q + 1)%N
  end.

(** [|x| * 100] rounded to an integer: Python's [float.__format__] rounds
    the exact binary value correctly. *)
Definition hundredths (m : N) (e : Z) : N :=
  if 0 <=? e then (m * 2 ^ Z.to_N e * 100)%N
  else round_half_even (m * 100) (2 ^ Z.to_N (- e)).

(** The digits of [h] hundredths: integer part, point, two decimals. *)
Definition fixed2 (grouping : bool) (h : N) : string :=
  let ip := digits (h / 100) in
  (if grouping then group3 ip else ip)
    ++ "." ++ String (digit (h / 10)) (String (digit h) EmptyString).

Definition sign (neg : bool) : string := if neg then "-" else EmptyString.

(** The unpadded text of a float under [.2f] or [,.2f]. *)
Definition float_f2 (grouping : bool) (x : float) : string :=
  match x with
  | Finite neg m e => sign neg ++ fixed2 grouping (hundredths m e)
  | Infinity neg => sign neg ++ "inf"
  end.

(** [float(z)] as [int.__format__] computes it before a float
    presentation: nearest double, ties to even; an int beyond the range of
    a double raises. *)
Definition float_of_int (z : Z) : result float :=
  let a := Z.abs_N z in
  let neg := z <? 0 in
  let size := N.succ (N.log2 a) in
  if (size <=? 53)%N then Ok (Finite neg a 0)
  else
    let shift := (size - 53)%N in
    let m := round_half_even a (2 ^ shift) in
    if (2 ^ 1024 <=? m * 2 ^ shift)%N then Raised OverflowError
    else Ok (Finite neg m (Z.of_N shift)).

(** [format(v, 'W,.2f')] and [format(v, '.2f')] ([w = 0]). *)
Definition format_f2 (w : nat) (grouping : bool) (v : value) : result string :=
  match v with
  | VInt z => rbind (float_of_int z) (fun x => Ok (rjust w (float_f2 grouping x)))
  | VFloat x => Ok (rjust w (float_f2 grouping x))
  | VStr _ => Raised ValueError
  | VNone | VBytes _ => Raised TypeError
  end.

(** [format(v, 'Ws')]. *)
Definition format_s (w : nat) (v : value) : result string :=
  match v with
  | VStr s => Ok (ljust w s)
  | VInt _ | VFloat _ => Raised ValueError
  | VNone | VBytes _ => Raised TypeError
  end.

(** [format(v, 'Wd')]. *)
Definition format_d (w : nat) (v : value) : result string :=
  match v with
  | VInt z => Ok (rjust w (str_int z))
  | VFloat _ | VStr _ => Raised ValueError
  | VNone | VBytes _ => Raised TypeError
  end.

(** *** [repr] of a [bytes] object *)

Definition hex_digit (d : N) : ascii :=
  if (d <? 10)%N then ascii_of_N (48 + d) else ascii_of_N (87 + d).

Definition dquote : ascii := ascii_of_N 34.
Definition squote : ascii := ascii_of_N 39.
Definition backslash : ascii := ascii_of_N 92.

(** The quote is ['] unless the bytes hold a ['] and no double quote. *)
Definition bytes_quote (b : list ascii) : ascii :=
  if existsb (Ascii.eqb squote) b && negb (existsb (Ascii.eqb dquote) b)
  then dquote else squote.

Definition escape_byte (q c : ascii) : string :=
  let n := N_of_ascii c in
  if Ascii.eqb c q || Ascii.eqb c backslash
  then String backslash (String c EmptyString)
  else if (n =? 9)%N then String backslash "t"
  else if (n =? 10)%N then String backslash "n"
  else if (n =? 13)%N then String backslash "r"
  else if (n <? 32)%N || (127 <=? n)%N
       then String backslash
              (String "x" (String (hex_digit (n / 16))
                             (String (hex_digit (n mod 16)) EmptyString)))
  else String c EmptyString.

Definition repr_bytes (b : list ascii) : string :=
  let q := bytes_quote b in
  "b" ++ String q (concat EmptyString (map (escape_byte q) b))
      ++ String q EmptyString.

(** *** [str(v)]: a replacement field with no format spec *)

Section Str.

(** [repr] of a float, the shortest decimal text that reads back as the
    same double.  The report prints a float this way only where a REAL
    is stored in an identity, date, PIN or timestamp column; nothing
    below depends on the digits chosen. *)
Variable repr_float : float -> string.

Definition str (v : value) : string :=
  match v with
  | VNone => "None"
  | VInt z => str_int z
  | VFloat x => repr_float x
  | VStr s => s
  | VBytes b => repr_bytes b
  end.

End Str.

(** *** f-strings *)

(** The literal text of an f-string. *)
Definition lit (s : string) : result string := Ok s.

(** An f-string: its parts are evaluated and appended from left to right;
    the first part that raises ends the evaluation. *)
Fixpoint fstring (parts : list (result string)) : result string :=
  match parts with
  | [] => Ok EmptyString
  | p :: rest =>
      rbind p (fun s => rbind (fstring rest) (fun t => Ok (s ++ t)))
  end.

End Py.

Import Py.

(* ===================================================================== *)
(** ** The store: five tables *)
(* ===================================================================== *)

(** The schema is created by the ATM application, not by this script.  The
    rows below carry the columns the script reads, in the order its
    queries select them.  SQLite types columns dynamically, so a column
    holds a [value].  Modelled from the spec: the [id] of a transaction
    and of an activity, which the queries order by, is an integer primary
    key (identity: int, unique). *)

(** [SELECT id, username, password, full_name, role, created_date,
    last_login FROM technician_credentials]: [row[0]] to [row[6]]. *)
Record credential : Type := mkCredential {
  cred_id : value;
  username : value;
  password : value;
  full_name : value;
  role : value;
  created_date : value;
  last_login : value
}.

(** Modelled from the spec: the columns of [accounts], read by
    [SELECT *] as [row[0]] to [row[3]]: account number, holder name,
    balance, PIN. *)
Record account : Type := mkAccount {
  account_number : value;
  holder_name : value;
  balance : value;
  pin : value
}.

(** Modelled from the spec: the columns of [atm_state], read by
    [SELECT *]; the script skips [row[0]] and reads [row[1]] to [row[3]]:
    cash, paper sheets, ink units. *)
Record machine_state : Type := mkMachineState {
  state_id : value;
  cash : value;
  paper_sheets : value;
  ink_units : value
}.

(** [SELECT id, account_number, account_holder, transaction_type, amount,
    previous_balance, new_balance, timestamp FROM transactions]. *)
Record transaction : Type := mkTransaction {
  tx_id : Z;
  tx_account_number : value;
  account_holder : value;
  transaction_type : value;
  tx_amount : value;
  previous_balance : value;
  new_balance : value;
  tx_timestamp : value
}.

(** [SELECT id, activity_type, amount, description, previous_value,
    new_value, timestamp FROM technician_activities]. *)
Record activity : Type := mkActivity {
  act_id : Z;
  activity_type : value;
  act_amount : value;
  description : value;
  previous_value : value;
  new_value : value;
  act_timestamp : value
}.

(** The contents of [data/atm_database.db].  A table is its rows in
    storage order; [None] is a table the file does not have, as in the
    empty file [sqlite3.connect] creates when there is none. *)
Record database : Type := mkDatabase {
  technician_credentials : option (list credential);
  accounts : option (list account);
  atm_state : option (list machine_state);
  transactions : option (list transaction);
  technician_activities : option (list activity)
}.

(** *** [ORDER BY id DESC LIMIT 20] *)

Section OrderBy.

Context {R : Type} (key : R -> Z).

Fixpoint insert_desc (r : R) (l : list R) : list R :=
  match l with
  | [] => [r]
  | r' :: l' =>
      if key r' <? key r then r :: l else r' :: insert_desc r l'
  end.

(** Rows by decreasing key; rows of equal key, whose order SQLite leaves
    open, stay in storage order. *)
Definition order_by_desc (l : list R) : list R :=
  fold_right insert_desc [] (rev l).

Definition LIMIT : nat := 20.

Definition order_by_desc_limit (l : list R) : list R :=
  firstn LIMIT (order_by_desc l).

End OrderBy.

(** The five statements the script executes. *)
Inductive query : Type :=
| SelectCredentials
| SelectAccounts
| SelectAtmState
| SelectTransactions
| SelectActivities.

Definition sql (q : query) : string :=
  match q with
  | SelectCredentials =>
      "SELECT id, username, password, full_name, role, created_date, last_login FROM technician_credentials"
  | SelectAccounts => "SELECT * FROM accounts"
  | SelectAtmState => "SELECT * FROM atm_state"
  | SelectTransactions =>
      "SELECT id, account_number, account_holder, transaction_type, amount, previous_balance, new_balance, timestamp FROM transactions ORDER BY id DESC LIMIT 20"
  | SelectActivities =>
      "SELECT id, activity_type, amount, description, previous_value, new_value, timestamp FROM technician_activities ORDER BY id DESC LIMIT 20"
  end.

(** The type of the rows a query returns. *)
Definition row (q : query) : Type :=
  match q with
  | SelectCredentials => credential
  | SelectAccounts => account
  | SelectAtmState => machine_state
  | SelectTransactions => transaction
  | SelectActivities => activity
  end.

(** The result set of a query, [None] when its table is missing. *)
Definition result_set (q : query) (d : database) : option (list (row q)) :=
  match q with
  | SelectCredentials => technician_credentials d
  | SelectAccounts => accounts d
  | SelectAtmState => atm_state d
  | SelectTransactions =>
      option_map (order_by_desc_limit tx_id) (transactions d)
  | SelectActivities =>
      option_map (order_by_desc_limit act_id) (technician_activities d)
  end.

(* ===================================================================== *)
(** ** The script *)
(* ===================================================================== *)

Inductive connection : Type :=
| NotConnected
| Open
| Closed.

(** What the script acts on: the database file ([None] when it cannot be
    opened), the connection [conn], the SQL statements executed so far and
    the strings printed so far, one per call of [print]. *)
Record world : Type := mkWorld {
  file : option database;
  conn : connection;
  executed : list string;
  stdout : list string
}.

(** A statement of the script: it changes the world and either completes
    or raises; the world it leaves is kept in both cases. *)
Definition M (A : Type) : Type := world -> result A * world.

Definition ret {A} (a : A) : M A := fun w => (Ok a, w).

Definition bind {A B} (m : M A) (k : A -> M B) : M B :=
  fun w =>
    match m w with
    | (Ok a, w') => k a w'
    | (Raised e, w') => (Raised e, w')
    end.

Notation "x <- m ;; k" := (bind m (fun x => k))
  (at level 61, m at next level, right associativity).
Notation "m ;; k" := (bind m (fun _ => k))
  (at level 61, right associativity).

(** An expression evaluated inside a statement. *)
Definition eval {A} (r : result A) : M A := fun w => (r, w).

(** [for x in l: body]. *)
Fixpoint for_each {A} (l : list A) (body : A -> M unit) : M unit :=
  match l with
  | [] => ret tt
  | x :: l' => body x ;; for_each l' body
  end.

(** [print(s)]. *)
Definition print (s : string) : M unit :=
  fun w => (Ok tt, mkWorld (file w) (conn w) (executed w) (stdout w ++ [s])).

(** [sqlite3.connect('data/atm_database.db')]. *)
Definition connect : M unit :=
  fun w =>
    match file w with
    | Some _ => (Ok tt, mkWorld (file w) Open (executed w) (stdout w))
    | None => (Raised OperationalError, w)
    end.

(** [cursor.execute(sql q)] followed by [cursor.fetchall()]. *)
Definition execute (q : query) : M (list (row q)) :=
  fun w =>
    let w' := mkWorld (file w) (conn w) (executed w ++ [sql q]) (stdout w) in
    match file w with
    | Some d =>
        match result_set q d with
        | Some rows => (Ok rows, w')
        | None => (Raised OperationalError, w')
        end
    | None => (Raised OperationalError, w')
    end.

(** [conn.close()]. *)
Definition close : M unit :=
  fun w => (Ok tt, mkWorld (file w) Closed (executed w) (stdout w)).

(** ['='*80] and ['\n' + '='*80]. *)
Definition rule : string := string_of_list_ascii (repeat "="%char 80).
Definition newline : ascii := ascii_of_N 10.
Definition nl_rule : string := String newline rule.

Definition header (title : string) : M unit :=
  print nl_rule ;; print title ;; print rule.

Section Script.

Variable repr_float : float -> string.

(** [{v}]: a replacement field with no format spec. *)
Definition field (v : value) : result string := Ok (str repr_float v).

(** *** Technician credentials *)

(** [row[6] if row[6] else "Never"]. *)
Definition last_login_or_never (r : credential) : value :=
  if truthy (last_login r) then last_login r else VStr "Never".

Definition credential_line (r : credential) : result string :=
  let last_login := last_login_or_never r in
  fstring
    [ lit "ID: "; field (cred_id r);
      lit " | Username: "; format_s 15 (username r);
      lit " | Password: "; format_s 10 (password r);
      lit " | Name: "; format_s 25 (full_name r);
      lit " | Role: "; format_s 10 (role r);
      lit " | Created: "; field (created_date r);
      lit " | Last Login: "; field last_login ].

Definition report_credentials : M unit :=
  header "TECHNICIAN CREDENTIALS" ;;
  credentials <- execute SelectCredentials ;;
  match credentials with
  | _ :: _ =>
      for_each credentials
        (fun r => line <- eval (credential_line r) ;; print line)
  | [] => print "No technician credentials found."
  end.

(** *** Accounts *)

Definition account_line (r : account) : result string :=
  fstring
    [ lit "Account #: "; format_s 6 (account_number r);
      lit " | Name: "; format_s 15 (holder_name r);
      lit " | Balance: $"; format_f2 10 true (balance r);
      lit " | PIN: "; field (pin r) ].

Definition report_accounts : M unit :=
  header "ACCOUNTS TABLE - All Customer Account Information" ;;
  rows <- execute SelectAccounts ;;
  for_each rows (fun r => line <- eval (account_line r) ;; print line).

(** *** ATM state *)

Definition machine_state_line (r : machine_state) : result string :=
  fstring
    [ lit "ATM Cash: $"; format_f2 10 true (cash r);
      lit " | Paper Sheets: "; format_d 3 (paper_sheets r);
      lit " | Ink Units: "; format_d 3 (ink_units r) ].

Definition report_atm_state : M unit :=
  header "ATM STATE - Machine Resources" ;;
  rows <- execute SelectAtmState ;;
  for_each rows (fun r => line <- eval (machine_state_line r) ;; print line).

(** *** Transactions *)

Definition transaction_line (r : transaction) : result string :=
  fstring
    [ lit "ID: "; format_d 3 (VInt (tx_id r));
      lit " | Account: "; format_s 6 (tx_account_number r);
      lit " | Holder: "; format_s 15 (account_holder r);
      lit " | Type: "; format_s 15 (transaction_type r);
      lit " | Amount: $"; format_f2 8 true (tx_amount r);
      lit " | Prev: $"; format_f2 8 true (previous_balance r);
      lit " | New: $"; format_f2 8 true (new_balance r);
      lit " | Time: "; field (tx_timestamp r) ].

Definition report_transactions : M unit :=
  header "TRANSACTIONS LOG - All Transactions (Last 20)" ;;
  transactions <- execute SelectTransactions ;;
  match transactions with
  | _ :: _ =>
      for_each transactions
        (fun r => line <- eval (transaction_line r) ;; print line)
  | [] => print "No transactions found."
  end.

(** *** Technician activities *)

(** [f'${row[2]:.2f}' if row[2] is not None else 'N/A']. *)
Definition amount_str (v : value) : result string :=
  match v with
  | VNone => Ok "N/A"
  | _ => fstring [ lit "$"; format_f2 0 false v ]
  end.

(** [f'{row[4]:.2f}' if row[4] is not None else 'N/A']. *)
Definition value_str (v : value) : result string :=
  match v with
  | VNone => Ok "N/A"
  | _ => format_f2 0 false v
  end.

Definition activity_line (r : activity) : result string :=
  rbind (amount_str (act_amount r)) (fun amount_str =>
  rbind (value_str (previous_value r)) (fun prev_str =>
  rbind (value_str (new_value r)) (fun new_str =>
  fstring
    [ lit "ID: "; format_d 3 (VInt (act_id r));
      lit " | Type: "; format_s 15 (activity_type r);
      lit " | Amount: "; Ok (rjust 10 amount_str);
      lit " | Description: "; format_s 25 (description r);
      lit " | Prev: "; Ok (rjust 10 prev_str);
      lit " | New: "; Ok (rjust 10 new_str);
      lit " | Time: "; field (act_timestamp r) ]))).

Definition report_activities : M unit :=
  header "TECHNICIAN ACTIVITIES LOG - All Technician Actions (Last 20)" ;;
  activities <- execute SelectActivities ;;
  match activities with
  | _ :: _ =>
      for_each activities
        (fun r => line <- eval (activity_line r) ;; print line)
  | [] => print "No technician activities found."
  end.

(** *** The whole script *)

Definition script : M unit :=
  connect ;;
  report_credentials ;;
  report_accounts ;;
  report_atm_state ;;
  report_transactions ;;
  report_activities ;;
  close.

(** A run of the script on a database file, from a fresh process. *)
Definition start (f : option database) : world :=
  mkWorld f NotConnected [] [].

Definition run (f : option database) : result unit * world :=
  script (start f).

End Script.

(* ===================================================================== *)
(** ** Vocabulary of the properties *)
(* ===================================================================== *)

(** *** What a loop over a result set prints *)

(** The lines a [for] loop prints for the rows of [l], up to the first row
    whose line raises, and that exception. *)
Fixpoint render {A} (f : A -> result string) (l : list A)
  : list string * option exn :=
  match l with
  | [] => ([], None)
  | x :: l' =>
      match f x with
      | Ok s => let (out, e) := render f l' in (s :: out, e)
      | Raised e => ([], Some e)
      end
  end.

Definition outcome (e : option exn) : result unit :=
  match e with
  | None => Ok tt
  | Some e => Raised e
  end.

(** What the body of a section prints for a result set: the placeholder
    line when there is no row, one line per row otherwise. *)
Definition section_body {A} (placeholder : string)
    (f : A -> result string) (rows : list A) : list string * option exn :=
  match rows with
  | [] => ([placeholder], None)
  | _ :: _ => render f rows
  end.

(** The world after [out] has been printed, and after [q] has been
    executed. *)
Definition emit (out : list string) (w : world) : world :=
  mkWorld (file w) (conn w) (executed w) (stdout w ++ out).

Definition logged (q : query) (w : world) : world :=
  mkWorld (file w) (conn w) (executed w ++ [sql q]) (stdout w).

(** *** Stores that conform to the data model *)

Definition is_str (v : value) : bool :=
  match v with VStr _ => true | _ => false end.

Definition is_int (v : value) : bool :=
  match v with VInt _ => true | _ => false end.

(** A decimal column: a REAL, or an INTEGER, which SQLite keeps in 64
    bits. *)
Definition is_decimal (v : value) : bool :=
  match v with
  | VFloat _ => true
  | VInt z => (- 2 ^ 63 <=? z) && (z <? 2 ^ 63)
  | _ => false
  end.

Definition nullable (p : value -> bool) (v : value) : bool :=
  match v with VNone => true | _ => p v end.

Definition credential_ok (r : credential) : bool :=
  is_str (username r) && is_str (password r)
  && is_str (full_name r) && is_str (role r).

Definition account_ok (r : account) : bool :=
  is_str (account_number r) && is_str (holder_name r)
  && is_decimal (balance r).

Definition machine_state_ok (r : machine_state) : bool :=
  is_decimal (cash r) && is_int (paper_sheets r) && is_int (ink_units r).

Definition transaction_ok (r : transaction) : bool :=
  is_str (tx_account_number r) && is_str (account_holder r)
  && is_str (transaction_type r) && is_decimal (tx_amount r)
  && is_decimal (previous_balance r) && is_decimal (new_balance r).

Definition activity_ok (r : activity) : bool :=
  is_str (activity_type r) && nullable is_decimal (act_amount r)
  && is_str (description r) && nullable is_decimal (previous_value r)
  && nullable is_decimal (new_value r).

Definition table_ok {A} (ok : A -> bool) (t : option (list A)) : bool :=
  match t with
  | Some rows => forallb ok rows
  | None => false
  end.

(** The five tables exist and every column holds a value of the type the
    data model gives it: strings, decimals, integer counts, and decimals
    or NULL for the three nullable numbers of an activity.  Identity,
    date, PIN and timestamp columns, printed as they are, may hold
    anything. *)
Definition conforms (d : database) : bool :=
  table_ok credential_ok (technician_credentials d)
  && table_ok account_ok (accounts d)
  && table_ok machine_state_ok (atm_state d)
  && table_ok transaction_ok (transactions d)
  && table_ok activity_ok (technician_activities d).

(** *** Headings *)

Definition title_credentials : string := "TECHNICIAN CREDENTIALS".
Definition title_accounts : string :=
  "ACCOUNTS TABLE - All Customer Account Information".
Definition title_atm_state : string := "ATM STATE - Machine Resources".
Definition title_transactions : string :=
  "TRANSACTIONS LOG - All Transactions (Last 20)".
Definition title_activities : string :=
  "TECHNICIAN ACTIVITIES LOG - All Technician Actions (Last 20)".

Definition titles : list string :=
  [ title_credentials; title_accounts; title_atm_state;
    title_transactions; title_activities ].

(** The three strings [header] prints. *)
Definition heading (title : string) : list string :=
  [ nl_rule; title; rule ].

(** A printed string is part of a heading. *)
Definition is_heading (s : string) : bool :=
  existsb (String.eqb s) (nl_rule :: rule :: titles).

Definition is_lower (c : ascii) : bool :=
  let n := N_of_ascii c in (97 <=? n)%N && (n <=? 122)%N.

Fixpoint all_caps (s : string) : bool :=
  match s with
  | EmptyString => true
  | String c s' => negb (is_lower c) && all_caps s'
  end.

(** The name each title starts with. *)
Definition section_names : list string :=
  [ "TECHNICIAN CREDENTIALS"; "ACCOUNTS TABLE"; "ATM STATE";
    "TRANSACTIONS LOG"; "TECHNICIAN ACTIVITIES LOG" ].

(** *** Decimal digits *)

Definition is_digit (c : ascii) : bool :=
  let n := N_of_ascii c in (48 <=? n)%N && (n <=? 57)%N.

Fixpoint all_chars (p : ascii -> bool) (s : string) : bool :=
  match s with
  | EmptyString => true
  | String c s' => p c && all_chars p s'
  end.

(** *** Placeholder lines *)

Definition no_credentials : string := "No technician credentials found.".
Definition no_transactions : string := "No transactions found.".
Definition no_activities : string := "No technician activities found.".

(** *** The report of a store whose five tables exist *)

Definition rows_of {A} (t : option (list A)) : list A :=
  match t with
  | Some rows => rows
  | None => []
  end.

Section FullReport.

Variable repr_float : float -> string.
Variable d : database.

Definition body_credentials : list string * option exn :=
  section_body no_credentials (credential_line repr_float)
    (rows_of (technician_credentials d)).

Definition body_accounts : list string * option exn :=
  render (account_line repr_float) (rows_of (accounts d)).

Definition body_atm_state : list string * option exn :=
  render machine_state_line (rows_of (atm_state d)).

Definition body_transactions : list string * option exn :=
  section_body no_transactions (transaction_line repr_float)
    (order_by_desc_limit tx_id (rows_of (transactions d))).

Definition body_activities : list string * option exn :=
  section_body no_activities (activity_line repr_float)
    (order_by_desc_limit act_id (rows_of (technician_activities d))).

(** Everything a run prints when no section raises. *)
Definition full_report : list string :=
  (heading title_credentials ++ fst body_credentials)
  ++ (heading title_accounts ++ fst body_accounts)
  ++ (heading title_atm_state ++ fst body_atm_state)
  ++ (heading title_transactions ++ fst body_transactions)
  ++ (heading title_activities ++ fst body_activities).

End FullReport.

(** The five statements, in the order the script executes them. *)
Definition all_statements : list string :=
  map sql [ SelectCredentials; SelectAccounts; SelectAtmState;
            SelectTransactions; SelectActivities ].

(** *** Ordering *)

Definition decreasing {R} (key : R -> Z) (l : list R) : Prop :=
  StronglySorted (fun a b => key a > key b) l.

(** *** What the statements of the script keep *)

(** A statement is a query when its text starts with [SELECT]. *)
Definition is_select (s : string) : bool := String.prefix "SELECT " s.

(** [m] keeps the property [I] of the world, whether it completes or
    raises. *)
Definition maintains (I : world -> Prop) {A} (m : M A) : Prop :=
  forall w, I w -> I (snd (m w)).

(** The database file is [f]; every statement executed so far is a
    query; the connection is open. *)
Definition same_file (f : option database) (w : world) : Prop := file w = f.

Definition only_selects (w : world) : Prop :=
  Forall (fun s => is_select s = true) (executed w).

Definition connected (w : world) : Prop := conn w = Open.

(** From an open connection, [m] ends with the connection closed when it
    completes and still open when it raises. *)
Definition closes_on_completion {A} (m : M A) : Prop :=
  forall w, connected w ->
    match m w with
    | (Ok _, w') => conn w' = Closed
    | (Raised _, w') => conn w' = Open
    end.

(** *** What a run prints, section by section *)

(** What a section prints and how it ends, from its table: the heading
    and [OperationalError] when the table is missing, the heading and
    the body otherwise. *)
Definition section_result {A} (title : string)
    (body : list A -> list string * option exn) (t : option (list A))
  : list string * option exn :=
  match t with
  | None => (heading title, Some OperationalError)
  | Some rows => ((heading title ++ fst (body rows))%list, snd (body rows))
  end.

(** Sections in sequence, up to the first that raises: the strings
    printed, the exception, and the number of sections entered. *)
Fixpoint in_sequence (parts : list (list string * option exn))
  : list string * option exn * nat :=
  match parts with
  | [] => ([], None, 0%nat)
  | (out, Some e) :: _ => (out, Some e, 1%nat)
  | (out, None) :: rest =>
      let '(out', e, k) := in_sequence rest in ((out ++ out')%list, e, S k)
  end.

(** The five sections of a run on the database [d]. *)
Definition section_results (repr_float : float -> string) (d : database)
  : list (list string * option exn) :=
  [ section_result title_credentials
      (section_body no_credentials (credential_line repr_float))
      (technician_credentials d);
    section_result title_accounts
      (render (account_line repr_float)) (accounts d);
    section_result title_atm_state
      (render machine_state_line) (atm_state d);
    section_result title_transactions
      (fun rows =>
         section_body no_transactions (transaction_line repr_float)
           (order_by_desc_limit tx_id rows))
      (transactions d);
    section_result title_activities
      (fun rows =>
         section_body no_activities (activity_line repr_float)
           (order_by_desc_limit act_id rows))
      (technician_activities d) ].

(** A character that is not a comma. *)
Definition not_comma (c : ascii) : bool := negb (Ascii.eqb c ",").

(** *** What the output depends on *)

(** The bytes written to standard output: [print] ends each string with
    a newline. *)
Fixpoint text (out : list string) : string :=
  match out with
  | [] => EmptyString
  | s :: out' => s ++ String newline (text out')
  end.



(** *** Reading a printed number back *)

Definition digit_value (c : ascii) : N := (N_of_ascii c - 48)%N.

Fixpoint number_from (acc : N) (s : string) : N :=
  match s with
  | EmptyString => acc
  | String c s' => number_from (10 * acc + digit_value c) s'
  end.

(** The number a string of decimal digits denotes. *)
Definition number (s : string) : N := number_from 0 s.

(** The integer a sign and decimal digits denote. *)
Definition read_int (s : string) : Z :=
  match s with
  | EmptyString => 0
  | String c s' =>
      if Ascii.eqb c "-" then - Z.of_N (number s') else Z.of_N (number s)
  end.

(** The string without the spaces it starts with. *)
Fixpoint lstrip (s : string) : string :=
  match s with
  | EmptyString => EmptyString
  | String c s' => if Ascii.eqb c " " then lstrip s' else s
  end.

(** The string without its commas. *)
Fixpoint remove_commas (s : string) : string :=
  match s with
  | EmptyString => EmptyString
  | String c s' =>
      if Ascii.eqb c "," then remove_commas s' else String c (remove_commas s')
  end.

(** *** Sample values and stores *)

(** The amount 1234.5, as SQLite returns it. *)
Definition amount_1234_5 : value := VFloat (Finite false 2469 (-1)).

(** A rendering of floats for the runs below, none of which prints a
    float with [str]. *)
Definition repr_float_unused : float -> string := fun _ => EmptyString.

(** The database with its five tables empty, and the file without any
    table. *)
Definition empty_database : database :=
  mkDatabase (Some []) (Some []) (Some []) (Some []) (Some []).

Definition blank_file : database :=
  mkDatabase None None None None None.

(** The store of the end-to-end scenario: one credential without last
    login, one account, one machine state, no transaction, no activity. *)
Definition scenario_database : database :=
  mkDatabase
    (Some [ mkCredential (VInt 1) (VStr "tech1") (VStr "pw123")
              (VStr "Technician One") (VStr "technician")
              (VStr "2024-01-01 09:00:00") VNone ])
    (Some [ mkAccount (VStr "100001") (VStr "Alice")
              (VFloat (Finite false 2500 0)) (VStr "1234") ])
    (Some [ mkMachineState (VInt 1) (VFloat (Finite false 5000 0))
              (VInt 10) (VInt 5) ])
    (Some [])
    (Some []).

Definition deposit (id : Z) : transaction :=
  mkTransaction id (VStr "100001") (VStr "Alice") (VStr "deposit")
    amount_1234_5 (VInt 0) amount_1234_5 (VStr "2024-01-01 10:00:00").

Definition refill (id : Z) : activity :=
  mkActivity id (VStr "CASH_REFILL") amount_1234_5 (VStr "Refilled cash")
    VNone VNone (VStr "2024-01-01 10:00:00").



(** The world of a run on [empty_database], once connected. *)
Definition empty_world : world := mkWorld (Some empty_database) Open [] [].

(** The worlds of a run on [scenario_database] and on [blank_file], once
    connected. *)
Definition scenario_world : world :=
  mkWorld (Some scenario_database) Open [] [].

Definition blank_world : world := mkWorld (Some blank_file) Open [] [].

(** Alice's account, and an account whose holder name is NULL. *)
Definition alice : account :=
  mkAccount (VStr "100001") (VStr "Alice") (VFloat (Finite false 2500 0))
    (VStr "1234").

Definition nameless : account :=
  mkAccount (VStr "100002") VNone (VInt 10) (VStr "0000").




(** A username of 21 characters. *)
Definition long_username : string := "administrator_account".

(* ===================================================================== *)
(** ** Facts about strings and padding *)
(* ===================================================================== *)

Lemma length_append (s t : string) :
  String.length (s ++ t) = (String.length s + String.length t)%nat.
Proof. induction s as [| c s IH]; simpl; [reflexivity | now rewrite IH]. Qed.

Lemma append_nil_r (s : string) : s ++ EmptyString = s.
Proof. induction s as [| c s IH]; simpl; [reflexivity | now rewrite IH]. Qed.

Lemma append_assoc (s t u : string) : (s ++ t) ++ u = s ++ (t ++ u).
Proof. induction s as [| c s IH]; simpl; [reflexivity | now rewrite IH]. Qed.

Lemma length_spaces (n : nat) : String.length (spaces n) = n.
Proof. induction n as [| n IH]; simpl; [reflexivity | now rewrite IH]. Qed.

(** A string no longer than the width is padded to the width. *)
Lemma length_ljust_fits (w : nat) (s : string) :
  (String.length s <= w)%nat -> String.length (ljust w s) = w.
Proof.
  intros H. unfold ljust. rewrite length_append, length_spaces. lia.
Qed.

(** A string longer than the width is left as it is. *)
Lemma ljust_long (w : nat) (s : string) :
  (w <= String.length s)%nat -> ljust w s = s.
Proof.
  intros H. unfold ljust.
  replace (w - String.length s)%nat with 0%nat by lia.
  apply append_nil_r.
Qed.

Lemma length_ljust (w : nat) (s : string) :
  String.length (ljust w s) = Nat.max w (String.length s).
Proof. unfold ljust. rewrite length_append, length_spaces. lia. Qed.

Lemma length_rjust (w : nat) (s : string) :
  String.length (rjust w s) = Nat.max w (String.length s).
Proof. unfold rjust. rewrite length_append, length_spaces. lia. Qed.

Lemma length_rule : String.length rule = 80%nat.
Proof. reflexivity. Qed.

(* ===================================================================== *)
(** ** Facts about f-strings *)
(* ===================================================================== *)

Lemma fstring_lit (p : string) (rest : list (result string)) :
  fstring (lit p :: rest) = rbind (fstring rest) (fun t => Ok (p ++ t)).
Proof. reflexivity. Qed.

Lemma fstring_ok (s : string) (rest : list (result string)) :
  fstring (Ok s :: rest) = rbind (fstring rest) (fun t => Ok (s ++ t)).
Proof. reflexivity. Qed.

(** A line that starts with literal text starts with that text. *)
Lemma fstring_lit_prefix (p : string) rest line :
  fstring (lit p :: rest) = Ok line -> exists t, line = p ++ t.
Proof.
  rewrite fstring_lit. destruct (fstring rest) as [t | e]; simpl; intros H.
  - injection H as <-. now exists t.
  - discriminate.
Qed.

(* ===================================================================== *)
(** ** Facts about the statements of the script *)
(* ===================================================================== *)

Lemma emit_nil (w : world) : emit [] w = w.
Proof. destruct w. unfold emit. simpl. now rewrite app_nil_r. Qed.

Lemma emit_emit (a b : list string) (w : world) :
  emit b (emit a w) = emit (a ++ b) w.
Proof. unfold emit. simpl. now rewrite app_assoc. Qed.

(** The world after a section, written out. *)
Lemma emit_logged (f : option database) (c : connection)
    (ex so : list string) (q : query) (o : list string) :
  emit o (logged q (mkWorld f c ex so))
  = mkWorld f c (ex ++ [sql q]) (so ++ o).
Proof. reflexivity. Qed.

Lemma print_emit (s : string) (w : world) : print s w = (Ok tt, emit [s] w).
Proof. reflexivity. Qed.

Lemma header_emit (t : string) (w : world) :
  header t w = (Ok tt, emit (heading t) w).
Proof.
  unfold header, bind. rewrite !print_emit, !emit_emit. reflexivity.
Qed.

Lemma bind_ok {A B} (m : M A) (k : A -> M B) w a w' :
  m w = (Ok a, w') -> bind m k w = k a w'.
Proof. intros H. unfold bind. now rewrite H. Qed.

Lemma bind_raised {A B} (m : M A) (k : A -> M B) w e w' :
  m w = (Raised e, w') -> bind m k w = (Raised e, w').
Proof. intros H. unfold bind. now rewrite H. Qed.

(** The loop that prints one line per row prints the lines [render]
    gives, and ends as [render] ends. *)
Lemma for_each_render {A} (f : A -> result string) (l : list A) (w : world) :
  for_each l (fun r => line <- eval (f r) ;; print line) w
  = (outcome (snd (render f l)), emit (fst (render f l)) w).
Proof.
  revert w. induction l as [| x l IH]; intros w; simpl.
  - now rewrite emit_nil.
  - unfold bind at 1. unfold bind at 1. unfold eval at 1.
    destruct (f x) as [s | e]; cbn [fst snd render outcome].
    + rewrite print_emit, IH. destruct (render f l) as [out oe]. simpl.
      now rewrite emit_emit.
    + now rewrite emit_nil.
Qed.

Lemma execute_rows (q : query) (w : world) d rows :
  file w = Some d -> result_set q d = Some rows ->
  execute q w = (Ok rows, logged q w).
Proof.
  intros Hf Hr. unfold execute, logged.
  destruct (file w) as [d' |]; [| discriminate].
  injection Hf as ->. now rewrite Hr.
Qed.

Lemma execute_no_table (q : query) (w : world) d :
  file w = Some d -> result_set q d = None ->
  execute q w = (Raised OperationalError, logged q w).
Proof.
  intros Hf Hr. unfold execute, logged.
  destruct (file w) as [d' |]; [| discriminate].
  injection Hf as ->. now rewrite Hr.
Qed.

(** When every row renders, [render] is [map]. *)
Lemma render_all_ok {A} (f : A -> result string) (g : A -> string) l :
  (forall x, In x l -> f x = Ok (g x)) -> render f l = (map g l, None).
Proof.
  induction l as [| x l IH]; intros H; simpl; [reflexivity |].
  rewrite (H x (or_introl eq_refl)), IH; [reflexivity |].
  intros y Hy. apply H. now right.
Qed.


(* ===================================================================== *)
(** ** Facts about [ORDER BY id DESC LIMIT 20] *)
(* ===================================================================== *)

Section OrderByFacts.

Context {R : Type} (key : R -> Z).

Let ge_key (a b : R) : Prop := key a >= key b.

Lemma insert_desc_perm (r : R) (l : list R) :
  Permutation (r :: l) (insert_desc key r l).
Proof.
  induction l as [| r' l IH]; simpl; [apply Permutation_refl |].
  destruct (key r' <? key r); [apply Permutation_refl |].
  eapply perm_trans; [apply perm_swap |]. now apply perm_skip.
Qed.

(** The ordered rows are the rows of the table. *)
Lemma order_by_desc_perm (l : list R) : Permutation l (order_by_desc key l).
Proof.
  unfold order_by_desc.
  eapply perm_trans; [apply Permutation_rev |].
  induction (rev l) as [| r l' IH]; simpl; [apply perm_nil |].
  eapply perm_trans; [apply perm_skip, IH | apply insert_desc_perm].
Qed.

Lemma length_order_by_desc (l : list R) :
  List.length (order_by_desc key l) = List.length l.
Proof. symmetry. apply Permutation_length, order_by_desc_perm. Qed.

Lemma insert_desc_sorted (r : R) (l : list R) :
  StronglySorted ge_key l -> StronglySorted ge_key (insert_desc key r l).
Proof.
  induction l as [| r' l IH]; intros Hs; simpl.
  - constructor; constructor.
  - inversion Hs as [| ? ? Hl Hall]; subst.
    destruct (key r' <? key r) eqn:E.
    + apply Z.ltb_lt in E. constructor; [exact Hs |].
      constructor; [unfold ge_key; lia |].
      eapply Forall_impl; [| exact Hall].
      unfold ge_key. intros; lia.
    + apply Z.ltb_ge in E. constructor; [now apply IH |].
      eapply Permutation_Forall; [apply insert_desc_perm |].
      constructor; [unfold ge_key; lia | exact Hall].
Qed.

Lemma order_by_desc_sorted (l : list R) :
  StronglySorted ge_key (order_by_desc key l).
Proof.
  unfold order_by_desc.
  induction (rev l) as [| r l' IH]; simpl;
    [constructor | now apply insert_desc_sorted].
Qed.

(** Without two rows of the same key, a non-increasing order is a
    decreasing one. *)
Lemma sorted_nodup_decreasing (l : list R) :
  StronglySorted ge_key l -> NoDup (map key l) -> decreasing key l.
Proof.
  unfold decreasing.
  induction l as [| r l IH]; intros Hs Hn; [constructor |].
  inversion Hs as [| ? ? Hl Hall]; subst.
  simpl in Hn. inversion Hn as [| ? ? Hnotin Hn']; subst.
  constructor; [now apply IH |].
  rewrite Forall_forall in *. intros y Hy.
  specialize (Hall y Hy). unfold ge_key in Hall.
  assert (key r <> key y).
  { intros E. apply Hnotin. rewrite E. now apply in_map. }
  lia.
Qed.

Lemma in_firstn (n : nat) (l : list R) (r : R) :
  In r (firstn n l) -> In r l.
Proof.
  intros H. rewrite <- (firstn_skipn n l). apply in_or_app. now left.
Qed.



Lemma order_by_desc_limit_incl (l : list R) :
  incl (order_by_desc_limit key l) l.
Proof.
  intros r Hr. unfold order_by_desc_limit in Hr.
  eapply Permutation_in;
    [apply Permutation_sym, order_by_desc_perm |].
  eapply in_firstn, Hr.
Qed.


End OrderByFacts.

(* ===================================================================== *)
(** ** Facts about number formatting *)
(* ===================================================================== *)

Lemma round_half_even_le (num den : N) :
  (round_half_even num den <= num / den + 1)%N.
Proof.
  unfold round_half_even.
  destruct (2 * (num mod den) ?= den)%N; [destruct (N.even _) | |]; lia.
Qed.

(** A 64-bit INTEGER converts to a float without overflow. *)
Lemma float_of_int_64 (z : Z) :
  - 2 ^ 63 <= z < 2 ^ 63 -> exists x, float_of_int z = Ok x.
Proof.
  intros Hz. unfold float_of_int.
  set (a := Z.abs_N z).
  assert (Ha : (a <= 2 ^ 63)%N).
  { subst a. change (2 ^ 63) with 9223372036854775808 in Hz.
    change (2 ^ 63)%N with 9223372036854775808%N. lia. }
  destruct (N.succ (N.log2 a) <=? 53)%N eqn:E; [eauto |].
  apply N.leb_gt in E.
  assert (Hlog : (N.log2 a <= 63)%N).
  { rewrite <- (N.log2_pow2 63) by lia. now apply N.log2_le_mono. }
  set (shift := (N.succ (N.log2 a) - 53)%N) in *.
  assert (Hshift : (shift <= 11)%N) by (subst shift; lia).
  assert (Hd : (2 ^ shift <= 2 ^ 11)%N) by (apply N.pow_le_mono_r; lia).
  assert (Hpos : (2 ^ shift <> 0)%N) by (apply N.pow_nonzero; lia).
  pose proof (round_half_even_le a (2 ^ shift)) as Hm.
  pose proof (N.Div0.mul_div_le a (2 ^ shift)) as Hq.
  assert (Hbig : (2 ^ 64 <= 2 ^ 1024)%N) by (apply N.pow_le_mono_r; lia).
  change (2 ^ 63)%N with 9223372036854775808%N in Ha.
  change (2 ^ 64)%N with 18446744073709551616%N in Hbig.
  change (2 ^ 11)%N with 2048%N in Hd.
  set (m := round_half_even a (2 ^ shift)) in *.
  set (d := (2 ^ shift)%N) in *.
  set (big := (2 ^ 1024)%N) in *.
  assert (Hlt : (m * d < big)%N) by nia.
  apply N.leb_gt in Hlt. rewrite Hlt. eauto.
Qed.

Lemma format_f2_decimal (w : nat) (g : bool) (v : value) :
  is_decimal v = true -> exists s, format_f2 w g v = Ok s.
Proof.
  destruct v as [| z | x | s | b]; simpl; try discriminate; intros H.
  - apply andb_true_iff in H as [H1 H2].
    apply Z.leb_le in H1. apply Z.ltb_lt in H2.
    destruct (float_of_int_64 z) as [x Hx]; [lia |].
    rewrite Hx. simpl. eauto.
  - eauto.
Qed.

Lemma format_s_str (w : nat) (v : value) :
  is_str v = true -> exists s, v = VStr s /\ format_s w v = Ok (ljust w s).
Proof. destruct v; simpl; try discriminate. eauto. Qed.

Lemma format_d_int (w : nat) (v : value) :
  is_int v = true -> exists s, format_d w v = Ok s.
Proof. destruct v; simpl; try discriminate. eauto. Qed.

(* ===================================================================== *)
(** ** The lines of the report *)
(* ===================================================================== *)

Section Lines.

Variable repr_float : float -> string.

Local Abbreviation str := (Py.str repr_float).

(** The line of a credential whose four padded columns hold strings. *)
Lemma credential_line_text id u p n ro created ll :
  credential_line repr_float
    (mkCredential id (VStr u) (VStr p) (VStr n) (VStr ro) created ll)
  = Ok ("ID: " ++ str id
        ++ " | Username: " ++ ljust 15 u
        ++ " | Password: " ++ ljust 10 p
        ++ " | Name: " ++ ljust 25 n
        ++ " | Role: " ++ ljust 10 ro
        ++ " | Created: " ++ str created
        ++ " | Last Login: "
        ++ str (if truthy ll then ll else VStr "Never")).
Proof.
  unfold credential_line, last_login_or_never, field, lit.
  cbn [fstring rbind format_s username password full_name role cred_id
       created_date last_login].
  now rewrite append_nil_r.
Qed.

(** A credential renders exactly when those four columns hold strings. *)
Lemma credential_line_ok (r : credential) :
  credential_ok r = true -> exists s, credential_line repr_float r = Ok s.
Proof.
  destruct r as [id u p n ro created ll]. unfold credential_ok. simpl.
  intros H. repeat (apply andb_true_iff in H as [H ?]).
  destruct u, p, n, ro; try discriminate.
  rewrite credential_line_text. eauto.
Qed.

Lemma account_line_ok (r : account) :
  account_ok r = true -> exists s, account_line repr_float r = Ok s.
Proof.
  destruct r as [no name bal p]. unfold account_ok. simpl.
  intros H. repeat (apply andb_true_iff in H as [H ?]).
  destruct no, name; try discriminate.
  destruct (format_f2_decimal 10 true bal) as [t Ht]; [assumption |].
  unfold account_line, field, lit.
  cbn [fstring rbind format_s account_number holder_name balance pin].
  rewrite Ht. cbn [rbind]. eauto.
Qed.

Lemma machine_state_line_ok (r : machine_state) :
  machine_state_ok r = true ->
  exists s, machine_state_line r = Ok s.
Proof.
  destruct r as [id c ps iu]. unfold machine_state_ok. simpl.
  intros H. repeat (apply andb_true_iff in H as [H ?]).
  destruct ps, iu; try discriminate.
  destruct (format_f2_decimal 10 true c) as [t Ht]; [assumption |].
  unfold machine_state_line, lit.
  cbn [fstring rbind format_d cash paper_sheets ink_units].
  rewrite Ht. cbn [rbind]. eauto.
Qed.

Lemma transaction_line_ok (r : transaction) :
  transaction_ok r = true ->
  exists s, transaction_line repr_float r = Ok s.
Proof.
  destruct r as [id no holder ty am pb nb ts]. unfold transaction_ok.
  simpl. intros H. repeat (apply andb_true_iff in H as [H ?]).
  destruct no, holder, ty; try discriminate.
  destruct (format_f2_decimal 8 true am) as [t1 Ht1]; [assumption |].
  destruct (format_f2_decimal 8 true pb) as [t2 Ht2]; [assumption |].
  destruct (format_f2_decimal 8 true nb) as [t3 Ht3]; [assumption |].
  unfold transaction_line, field, lit.
  cbn [fstring rbind format_s format_d tx_id tx_account_number
       account_holder transaction_type tx_amount previous_balance
       new_balance tx_timestamp].
  rewrite Ht1, Ht2, Ht3. cbn [rbind]. eauto.
Qed.

Lemma amount_str_ok (v : value) :
  nullable is_decimal v = true -> exists s, amount_str v = Ok s.
Proof.
  destruct v as [| z | x | s | b]; simpl; try discriminate; eauto;
    intros H.
  destruct (format_f2_decimal 0 false (VInt z)) as [t Ht]; [assumption |].
  unfold lit. simpl in Ht. rewrite Ht. simpl. eauto.
Qed.

Lemma value_str_ok (v : value) :
  nullable is_decimal v = true -> exists s, value_str v = Ok s.
Proof.
  destruct v as [| z | x | s | b]; simpl; try discriminate; eauto;
    intros H.
  destruct (format_f2_decimal 0 false (VInt z)) as [t Ht]; [assumption |].
  simpl in Ht. rewrite Ht. eauto.
Qed.

(** The line of an activity, given the three strings the script
    computes first. *)
Lemma activity_line_text id ty am de pv nv ts a p n :
  amount_str am = Ok a -> value_str pv = Ok p -> value_str nv = Ok n ->
  activity_line repr_float (mkActivity id (VStr ty) am (VStr de) pv nv ts)
  = Ok ("ID: " ++ rjust 3 (str_int id)
        ++ " | Type: " ++ ljust 15 ty
        ++ " | Amount: " ++ rjust 10 a
        ++ " | Description: " ++ ljust 25 de
        ++ " | Prev: " ++ rjust 10 p
        ++ " | New: " ++ rjust 10 n
        ++ " | Time: " ++ str ts).
Proof.
  intros Ha Hp Hn. unfold activity_line, field, lit.
  cbn [act_amount previous_value new_value act_id activity_type
       description act_timestamp].
  rewrite Ha, Hp, Hn.
  cbn [fstring rbind format_s format_d].
  now rewrite append_nil_r.
Qed.

Lemma activity_line_ok (r : activity) :
  activity_ok r = true -> exists s, activity_line repr_float r = Ok s.
Proof.
  destruct r as [id ty am de pv nv ts]. unfold activity_ok. simpl.
  intros H. repeat (apply andb_true_iff in H as [H ?]).
  destruct ty, de; try discriminate.
  destruct (amount_str_ok am) as [a Ha]; [assumption |].
  destruct (value_str_ok pv) as [p Hp]; [assumption |].
  destruct (value_str_ok nv) as [n Hn]; [assumption |].
  erewrite activity_line_text by eassumption. eauto.
Qed.

End Lines.

(* ===================================================================== *)
(** ** The sections of the report *)
(* ===================================================================== *)

(** A section whose table exists prints its heading, then its body. *)
Lemma section_run {q : query} (title : string)
    (body : list (row q) -> M unit)
    (b : list (row q) -> list string * option exn) w d rows :
  file w = Some d -> result_set q d = Some rows ->
  (forall w', body rows w' = (outcome (snd (b rows)), emit (fst (b rows)) w')) ->
  (header title ;; rows <- execute q ;; body rows) w
  = (outcome (snd (b rows)),
     emit (heading title ++ fst (b rows)) (logged q w)).
Proof.
  intros Hf Hr Hb.
  rewrite (bind_ok _ _ _ _ _ (header_emit title w)).
  rewrite (bind_ok _ _ _ _ _
             (execute_rows q (emit (heading title) w) d rows Hf Hr)).
  rewrite Hb. f_equal. unfold emit, logged.
  cbn [file conn executed stdout]. now rewrite <- app_assoc.
Qed.

(** A section whose table is missing prints its heading and raises. *)
Lemma section_no_table {q : query} (title : string)
    (body : list (row q) -> M unit) w d :
  file w = Some d -> result_set q d = None ->
  (header title ;; rows <- execute q ;; body rows) w
  = (Raised OperationalError, emit (heading title) (logged q w)).
Proof.
  intros Hf Hr.
  rewrite (bind_ok _ _ _ _ _ (header_emit title w)).
  now rewrite (bind_raised _ _ _ _ _
                 (execute_no_table q (emit (heading title) w) d Hf Hr)).
Qed.

Lemma placeholder_or_loop {A} (placeholder : string)
    (f : A -> result string) (rows : list A) (w : world) :
  match rows with
  | _ :: _ => for_each rows (fun r => line <- eval (f r) ;; print line)
  | [] => print placeholder
  end w
  = (outcome (snd (section_body placeholder f rows)),
     emit (fst (section_body placeholder f rows)) w).
Proof.
  destruct rows as [| r rows]; [reflexivity |].
  unfold section_body. apply for_each_render.
Qed.

Section Sections.

Variable repr_float : float -> string.

Variables (w : world) (d : database).
Hypothesis Hfile : file w = Some d.

Lemma report_credentials_run rows :
  technician_credentials d = Some rows ->
  let b := section_body no_credentials (credential_line repr_float) rows in
  report_credentials repr_float w
  = (outcome (snd b),
     emit (heading title_credentials ++ fst b) (logged SelectCredentials w)).
Proof.
  intros Hr b. unfold report_credentials.
  apply (section_run (q := SelectCredentials) _ _
           (section_body no_credentials (credential_line repr_float))
           w d rows Hfile Hr).
  intros w'. apply placeholder_or_loop.
Qed.

Lemma report_accounts_run rows :
  accounts d = Some rows ->
  let b := render (account_line repr_float) rows in
  report_accounts repr_float w
  = (outcome (snd b),
     emit (heading title_accounts ++ fst b) (logged SelectAccounts w)).
Proof.
  intros Hr b. unfold report_accounts.
  apply (section_run (q := SelectAccounts) _ _
           (render (account_line repr_float)) w d rows Hfile Hr).
  intros w'. apply for_each_render.
Qed.

Lemma report_atm_state_run rows :
  atm_state d = Some rows ->
  let b := render machine_state_line rows in
  report_atm_state w
  = (outcome (snd b),
     emit (heading title_atm_state ++ fst b) (logged SelectAtmState w)).
Proof.
  intros Hr b. unfold report_atm_state.
  apply (section_run (q := SelectAtmState) _ _
           (render machine_state_line) w d rows Hfile Hr).
  intros w'. apply for_each_render.
Qed.

Lemma report_transactions_run rows :
  transactions d = Some rows ->
  let b := section_body no_transactions (transaction_line repr_float)
             (order_by_desc_limit tx_id rows) in
  report_transactions repr_float w
  = (outcome (snd b),
     emit (heading title_transactions ++ fst b)
       (logged SelectTransactions w)).
Proof.
  intros Hr b. unfold report_transactions.
  apply (section_run (q := SelectTransactions) _ _
           (section_body no_transactions (transaction_line repr_float))
           w d (order_by_desc_limit tx_id rows) Hfile).
  - simpl. now rewrite Hr.
  - intros w'. apply placeholder_or_loop.
Qed.

Lemma report_activities_run rows :
  technician_activities d = Some rows ->
  let b := section_body no_activities (activity_line repr_float)
             (order_by_desc_limit act_id rows) in
  report_activities repr_float w
  = (outcome (snd b),
     emit (heading title_activities ++ fst b)
       (logged SelectActivities w)).
Proof.
  intros Hr b. unfold report_activities.
  apply (section_run (q := SelectActivities) _ _
           (section_body no_activities (activity_line repr_float))
           w d (order_by_desc_limit act_id rows) Hfile).
  - simpl. now rewrite Hr.
  - intros w'. apply placeholder_or_loop.
Qed.

End Sections.

(* ===================================================================== *)
(** ** What every statement of the script keeps *)
(* ===================================================================== *)

Section Maintains.

Variable I : world -> Prop.

Lemma maintains_ret {A} (a : A) : maintains I (ret a).
Proof. intros w Hw. exact Hw. Qed.

Lemma maintains_eval {A} (r : result A) : maintains I (eval r).
Proof. intros w Hw. exact Hw. Qed.

Lemma maintains_bind {A B} (m : M A) (k : A -> M B) :
  maintains I m -> (forall a, maintains I (k a)) -> maintains I (bind m k).
Proof.
  intros Hm Hk w Hw. unfold bind. specialize (Hm w Hw).
  destruct (m w) as [[a | e] w']; simpl in *; [now apply Hk | exact Hm].
Qed.

Lemma maintains_for_each {A} (l : list A) (body : A -> M unit) :
  (forall x, maintains I (body x)) -> maintains I (for_each l body).
Proof.
  intros Hb. induction l as [| x l IH]; simpl.
  - apply maintains_ret.
  - apply maintains_bind; [apply Hb | intros _; exact IH].
Qed.

(** The five sections only print and execute queries. *)
Hypothesis Hprint : forall s, maintains I (print s).
Hypothesis Hexecute : forall q, maintains I (execute q).

Lemma maintains_header (t : string) : maintains I (header t).
Proof.
  unfold header. repeat (apply maintains_bind; [apply Hprint | intros _]).
  apply Hprint.
Qed.

Lemma maintains_loop {A} (f : A -> result string) (l : list A) :
  maintains I (for_each l (fun r => line <- eval (f r) ;; print line)).
Proof.
  apply maintains_for_each. intros x.
  apply maintains_bind; [apply maintains_eval | intros s; apply Hprint].
Qed.

Lemma maintains_placeholder_or_loop {A} (p : string)
    (f : A -> result string) (l : list A) :
  maintains I
    match l with
    | _ :: _ => for_each l (fun r => line <- eval (f r) ;; print line)
    | [] => print p
    end.
Proof. destruct l; [apply Hprint | apply maintains_loop]. Qed.

Variable repr_float : float -> string.

Lemma maintains_report_credentials :
  maintains I (report_credentials repr_float).
Proof.
  unfold report_credentials.
  apply maintains_bind; [apply maintains_header | intros _].
  apply maintains_bind; [apply Hexecute | intros rows].
  apply maintains_placeholder_or_loop.
Qed.

Lemma maintains_report_accounts : maintains I (report_accounts repr_float).
Proof.
  unfold report_accounts.
  apply maintains_bind; [apply maintains_header | intros _].
  apply maintains_bind; [apply Hexecute | intros rows].
  apply maintains_loop.
Qed.

Lemma maintains_report_atm_state : maintains I report_atm_state.
Proof.
  unfold report_atm_state.
  apply maintains_bind; [apply maintains_header | intros _].
  apply maintains_bind; [apply Hexecute | intros rows].
  apply maintains_loop.
Qed.

Lemma maintains_report_transactions :
  maintains I (report_transactions repr_float).
Proof.
  unfold report_transactions.
  apply maintains_bind; [apply maintains_header | intros _].
  apply maintains_bind; [apply Hexecute | intros rows].
  apply maintains_placeholder_or_loop.
Qed.

Lemma maintains_report_activities :
  maintains I (report_activities repr_float).
Proof.
  unfold report_activities.
  apply maintains_bind; [apply maintains_header | intros _].
  apply maintains_bind; [apply Hexecute | intros rows].
  apply maintains_placeholder_or_loop.
Qed.

(** With [connect] and [close], the whole script. *)
Hypothesis Hconnect : maintains I connect.
Hypothesis Hclose : maintains I close.

Lemma maintains_script : maintains I (script repr_float).
Proof.
  unfold script.
  apply maintains_bind; [apply Hconnect | intros _].
  apply maintains_bind; [apply maintains_report_credentials | intros _].
  apply maintains_bind; [apply maintains_report_accounts | intros _].
  apply maintains_bind; [apply maintains_report_atm_state | intros _].
  apply maintains_bind; [apply maintains_report_transactions | intros _].
  apply maintains_bind; [apply maintains_report_activities | intros _].
  apply Hclose.
Qed.

End Maintains.

(** *** The store is only read *)

Lemma sql_is_select (q : query) : is_select (sql q) = true.
Proof. destruct q; reflexivity. Qed.

Lemma script_same_file repr_float (f : option database) :
  maintains (same_file f) (script repr_float).
Proof.
  apply maintains_script; unfold maintains, same_file.
  - intros s w Hw. exact Hw.
  - intros q w Hw. unfold execute.
    destruct (file w) as [d |] eqn:E; [destruct (result_set q d) |];
      simpl; congruence.
  - intros w Hw. unfold connect.
    destruct (file w) eqn:E; simpl; congruence.
  - intros w Hw. exact Hw.
Qed.

Lemma script_only_selects repr_float :
  maintains only_selects (script repr_float).
Proof.
  apply maintains_script; unfold maintains, only_selects.
  - intros s w Hw. exact Hw.
  - intros q w Hw.
    assert (Forall (fun s => is_select s = true) (executed w ++ [sql q])).
    { apply Forall_app. split; [exact Hw |].
      constructor; [apply sql_is_select | constructor]. }
    unfold execute.
    destruct (file w) as [d |]; [destruct (result_set q d) |]; assumption.
  - intros w Hw. unfold connect. destruct (file w); exact Hw.
  - intros w Hw. exact Hw.
Qed.

Lemma run_same_file repr_float (f : option database) :
  file (snd (run repr_float f)) = f.
Proof. apply (script_same_file repr_float f (start f)). reflexivity. Qed.

(** *** The connection *)

Lemma closes_bind {A B} (m : M A) (k : A -> M B) :
  maintains connected m -> (forall a, closes_on_completion (k a)) ->
  closes_on_completion (bind m k).
Proof.
  intros Hm Hk w Hw. unfold bind. specialize (Hm w Hw).
  destruct (m w) as [[a | e] w']; simpl in *; [now apply Hk | exact Hm].
Qed.

Lemma closes_close : closes_on_completion close.
Proof. intros w Hw. reflexivity. Qed.

Lemma print_connected (s : string) : maintains connected (print s).
Proof. intros w Hw. exact Hw. Qed.

Lemma execute_connected (q : query) : maintains connected (execute q).
Proof.
  intros w Hw. unfold execute.
  destruct (file w) as [d |]; [destruct (result_set q d) |]; exact Hw.
Qed.

Lemma reports_then_close repr_float :
  closes_on_completion
    (report_credentials repr_float ;;
     report_accounts repr_float ;;
     report_atm_state ;;
     report_transactions repr_float ;;
     report_activities repr_float ;;
     close).
Proof.
  pose proof print_connected as Hp. pose proof execute_connected as He.
  apply closes_bind; [now apply maintains_report_credentials | intros _].
  apply closes_bind; [now apply maintains_report_accounts | intros _].
  apply closes_bind; [now apply maintains_report_atm_state | intros _].
  apply closes_bind; [now apply maintains_report_transactions | intros _].
  apply closes_bind; [now apply maintains_report_activities | intros _].
  apply closes_close.
Qed.

(** A run connects, or raises at once when the file cannot be opened. *)
Lemma run_connect repr_float (d : database) :
  run repr_float (Some d)
  = (report_credentials repr_float ;;
     report_accounts repr_float ;;
     report_atm_state ;;
     report_transactions repr_float ;;
     report_activities repr_float ;;
     close) (mkWorld (Some d) Open [] []).
Proof. reflexivity. Qed.

Lemma run_cannot_connect repr_float :
  run repr_float None = (Raised OperationalError, start None).
Proof. reflexivity. Qed.

(* ===================================================================== *)
(** ** The run on a store that conforms to the data model *)
(* ===================================================================== *)

Lemma render_ok {A} (f : A -> result string) (l : list A) :
  (forall x, In x l -> exists s, f x = Ok s) -> snd (render f l) = None.
Proof.
  induction l as [| x l IH]; intros H; simpl; [reflexivity |].
  destruct (H x (or_introl eq_refl)) as [s ->].
  specialize (IH (fun y Hy => H y (or_intror Hy))).
  destruct (render f l). exact IH.
Qed.

Lemma render_rows_ok {A} (ok : A -> bool) (f : A -> result string) l :
  (forall x, ok x = true -> exists s, f x = Ok s) ->
  forallb ok l = true -> snd (render f l) = None.
Proof.
  intros Hf Hl. apply render_ok. intros x Hx. apply Hf.
  rewrite forallb_forall in Hl. now apply Hl.
Qed.

Lemma section_body_rows_ok {A} (ok : A -> bool) (f : A -> result string)
    (p : string) l :
  (forall x, ok x = true -> exists s, f x = Ok s) ->
  forallb ok l = true -> snd (section_body p f l) = None.
Proof.
  intros Hf Hl. destruct l as [| x l]; [reflexivity |].
  now apply (render_rows_ok ok).
Qed.

Lemma forallb_incl {A} (ok : A -> bool) (l l' : list A) :
  incl l' l -> forallb ok l = true -> forallb ok l' = true.
Proof.
  intros Hi Hl. rewrite forallb_forall in *. intros x Hx. apply Hl, Hi, Hx.
Qed.

Section Conforming.

Variable repr_float : float -> string.
Variable d : database.
Hypothesis Hconf : conforms d = true.

Lemma conforms_tables :
  exists c a s t v,
    technician_credentials d = Some c /\ forallb credential_ok c = true
    /\ accounts d = Some a /\ forallb account_ok a = true
    /\ atm_state d = Some s /\ forallb machine_state_ok s = true
    /\ transactions d = Some t /\ forallb transaction_ok t = true
    /\ technician_activities d = Some v /\ forallb activity_ok v = true.
Proof.
  unfold conforms in Hconf.
  repeat (apply andb_true_iff in Hconf as [Hconf ?]).
  destruct (technician_credentials d) as [c |]; [| discriminate].
  destruct (accounts d) as [a |]; [| discriminate].
  destruct (atm_state d) as [s |]; [| discriminate].
  destruct (transactions d) as [t |]; [| discriminate].
  destruct (technician_activities d) as [v |]; [| discriminate].
  exists c, a, s, t, v. simpl in *. repeat split; assumption.
Qed.

(** No section raises. *)
Lemma conforms_bodies :
  snd (body_credentials repr_float d) = None
  /\ snd (body_accounts repr_float d) = None
  /\ snd (body_atm_state d) = None
  /\ snd (body_transactions repr_float d) = None
  /\ snd (body_activities repr_float d) = None.
Proof.
  destruct conforms_tables
    as (c & a & s & t & v & Hc & Hc' & Ha & Ha' & Hs & Hs' & Ht & Ht'
        & Hv & Hv').
  unfold body_credentials, body_accounts, body_atm_state,
    body_transactions, body_activities.
  rewrite Hc, Ha, Hs, Ht, Hv. cbn [rows_of].
  repeat split.
  - apply (section_body_rows_ok credential_ok);
      [apply credential_line_ok | assumption].
  - apply (render_rows_ok account_ok);
      [apply account_line_ok | assumption].
  - apply (render_rows_ok machine_state_ok);
      [apply machine_state_line_ok | assumption].
  - apply (section_body_rows_ok transaction_ok);
      [apply transaction_line_ok |].
    eapply forallb_incl; [apply order_by_desc_limit_incl | assumption].
  - apply (section_body_rows_ok activity_ok);
      [apply activity_line_ok |].
    eapply forallb_incl; [apply order_by_desc_limit_incl | assumption].
Qed.

(** The run completes: it has executed the five queries, printed the
    full report and closed the connection. *)
Lemma run_conforming :
  run repr_float (Some d)
  = (Ok tt,
     mkWorld (Some d) Closed all_statements (full_report repr_float d)).
Proof.
  destruct conforms_bodies as (Bc & Ba & Bs & Bt & Bv).
  destruct conforms_tables
    as (c & a & s & t & v & Hc & _ & Ha & _ & Hs & _ & Ht & _ & Hv & _).
  unfold body_credentials, body_accounts, body_atm_state,
    body_transactions, body_activities in *.
  unfold full_report, body_credentials, body_accounts, body_atm_state,
    body_transactions, body_activities.
  rewrite Hc, Ha, Hs, Ht, Hv in *. cbn [rows_of] in *.
  rewrite run_connect.
  erewrite bind_ok.
  2: { match goal with |- _ ?w = _ =>
         pose proof (report_credentials_run repr_float w d eq_refl c Hc)
           as E
       end.
       cbv zeta in E. rewrite E, Bc, emit_logged. reflexivity. }
  erewrite bind_ok.
  2: { match goal with |- _ ?w = _ =>
         pose proof (report_accounts_run repr_float w d eq_refl a Ha) as E
       end.
       cbv zeta in E. rewrite E, Ba, emit_logged. reflexivity. }
  erewrite bind_ok.
  2: { match goal with |- _ ?w = _ =>
         pose proof (report_atm_state_run w d eq_refl s Hs) as E
       end.
       cbv zeta in E. rewrite E, Bs, emit_logged. reflexivity. }
  erewrite bind_ok.
  2: { match goal with |- _ ?w = _ =>
         pose proof (report_transactions_run repr_float w d eq_refl t Ht)
           as E
       end.
       cbv zeta in E. rewrite E, Bt, emit_logged. reflexivity. }
  erewrite bind_ok.
  2: { match goal with |- _ ?w = _ =>
         pose proof (report_activities_run repr_float w d eq_refl v Hv)
           as E
       end.
       cbv zeta in E. rewrite E, Bv, emit_logged. reflexivity. }
  unfold close. cbn [file conn executed stdout].
  f_equal. f_equal. rewrite <- !app_assoc. reflexivity.
Qed.

End Conforming.

(* ===================================================================== *)
(** ** Headings and row lines *)
(* ===================================================================== *)

Lemma render_forall {A} (P : string -> Prop) (f : A -> result string) l :
  (forall x s, f x = Ok s -> P s) -> Forall P (fst (render f l)).
Proof.
  intros H. induction l as [| x l IH]; simpl; [constructor |].
  destruct (f x) as [s | e] eqn:E; [| constructor].
  destruct (render f l) as [out oe]. simpl in *.
  constructor; [now apply (H x) | exact IH].
Qed.

Lemma section_body_forall {A} (P : string -> Prop) (p : string)
    (f : A -> result string) l :
  P p -> (forall x s, f x = Ok s -> P s) ->
  Forall P (fst (section_body p f l)).
Proof.
  intros Hp H. destruct l as [| x l].
  - constructor; [exact Hp | constructor].
  - now apply render_forall.
Qed.

Lemma filter_none {A} (p : A -> bool) (l : list A) :
  Forall (fun x => p x = false) l -> filter p l = [].
Proof.
  induction 1 as [| x l Hx _ IH]; simpl; [reflexivity |].
  now rewrite Hx.
Qed.

(** A row line is not a heading: it starts with the name of its first
    column. *)
Lemma id_line_not_heading (t : string) : is_heading ("ID: " ++ t) = false.
Proof. reflexivity. Qed.

Lemma account_line_not_heading (t : string) :
  is_heading ("Account #: " ++ t) = false.
Proof. reflexivity. Qed.

Lemma cash_line_not_heading (t : string) :
  is_heading ("ATM Cash: $" ++ t) = false.
Proof. reflexivity. Qed.

Section RowLines.

Variable repr_float : float -> string.

Lemma credential_line_not_heading r s :
  credential_line repr_float r = Ok s -> is_heading s = false.
Proof.
  intros H. apply fstring_lit_prefix in H as [t ->].
  apply id_line_not_heading.
Qed.

Lemma account_line_not_heading' r s :
  account_line repr_float r = Ok s -> is_heading s = false.
Proof.
  intros H. apply fstring_lit_prefix in H as [t ->].
  apply account_line_not_heading.
Qed.

Lemma machine_state_line_not_heading r s :
  machine_state_line r = Ok s -> is_heading s = false.
Proof.
  intros H. apply fstring_lit_prefix in H as [t ->].
  apply cash_line_not_heading.
Qed.

Lemma transaction_line_not_heading r s :
  transaction_line repr_float r = Ok s -> is_heading s = false.
Proof.
  intros H. apply fstring_lit_prefix in H as [t ->].
  apply id_line_not_heading.
Qed.

Lemma activity_line_not_heading r s :
  activity_line repr_float r = Ok s -> is_heading s = false.
Proof.
  unfold activity_line. intros H.
  destruct (amount_str _); [| discriminate].
  destruct (value_str _); [| discriminate].
  destruct (value_str _); [| discriminate].
  cbn [rbind] in H. apply fstring_lit_prefix in H as [t ->].
  apply id_line_not_heading.
Qed.

(** The headings of the full report are the five headings, each once,
    in the order of the script. *)
Lemma full_report_headings (d : database) :
  filter is_heading (full_report repr_float d)
  = (heading title_credentials ++ heading title_accounts
     ++ heading title_atm_state ++ heading title_transactions
     ++ heading title_activities)%list.
Proof.
  assert (Hc : filter is_heading (fst (body_credentials repr_float d)) = []).
  { apply filter_none, section_body_forall;
      [reflexivity | apply credential_line_not_heading]. }
  assert (Ha : filter is_heading (fst (body_accounts repr_float d)) = []).
  { apply filter_none, render_forall, account_line_not_heading'. }
  assert (Hs : filter is_heading (fst (body_atm_state d)) = []).
  { apply filter_none, render_forall, machine_state_line_not_heading. }
  assert (Ht : filter is_heading (fst (body_transactions repr_float d)) = []).
  { apply filter_none, section_body_forall;
      [reflexivity | apply transaction_line_not_heading]. }
  assert (Hv : filter is_heading (fst (body_activities repr_float d)) = []).
  { apply filter_none, section_body_forall;
      [reflexivity | apply activity_line_not_heading]. }
  unfold full_report. rewrite !filter_app, Hc, Ha, Hs, Ht, Hv.
  rewrite !app_nil_r. reflexivity.
Qed.

End RowLines.

(* ===================================================================== *)
(** ** Decimal digits *)
(* ===================================================================== *)

Lemma digit_is_digit (n : N) : is_digit (digit n) = true.
Proof.
  unfold is_digit, digit.
  assert (H : (n mod 10 < 10)%N) by (apply N.mod_lt; lia).
  assert (H' : (48 + n mod 10 < 256)%N) by lia.
  rewrite (N_ascii_embedding _ H').
  apply andb_true_iff. split; apply N.leb_le; [apply N.le_add_r | lia].
Qed.

Lemma digits_aux_acc (fuel : nat) (n : N) (acc : string) :
  digits_aux fuel n acc = digits_aux fuel n EmptyString ++ acc.
Proof.
  revert n acc. induction fuel as [| fuel IH]; intros n acc; simpl.
  - reflexivity.
  - destruct (n <? 10)%N; [reflexivity |].
    rewrite (IH _ (String (digit n) acc)).
    rewrite (IH _ (String (digit n) EmptyString)).
    now rewrite append_assoc.
Qed.

Lemma log2_div10 (n : N) :
  (10 <= n)%N -> (N.log2 (n / 10) < N.log2 n)%N.
Proof.
  intros H.
  assert (Hq : (0 < n / 10)%N).
  { apply N.div_str_pos. lia. }
  assert (H10 : (10 * (n / 10) <= n)%N) by (apply N.Div0.mul_div_le).
  assert (Hle : (N.log2 (2 * (n / 10)) <= N.log2 n)%N)
    by (apply N.log2_le_mono; lia).
  rewrite N.log2_double in Hle by exact Hq. lia.
Qed.

(** The fuel of [digits] is enough: more fuel gives the same digits. *)
Lemma digits_aux_fuel (f1 f2 : nat) (n : N) :
  (N.to_nat (N.log2 n) < f1)%nat -> (N.to_nat (N.log2 n) < f2)%nat ->
  digits_aux f1 n EmptyString = digits_aux f2 n EmptyString.
Proof.
  revert f2 n. induction f1 as [| f1 IH]; intros f2 n H1 H2; [lia |].
  destruct f2 as [| f2]; [lia |]. simpl.
  destruct (n <? 10)%N eqn:E; [reflexivity |].
  apply N.ltb_ge in E. pose proof (log2_div10 n E) as Hlog.
  rewrite (digits_aux_acc f1), (digits_aux_acc f2).
  f_equal. apply IH; lia.
Qed.

(** [digits] is the decimal notation: one digit below ten, and otherwise
    the digits of the tenth followed by the digit of the units. *)
Lemma digits_small (n : N) :
  (n < 10)%N -> digits n = String (digit n) EmptyString.
Proof.
  intros H. unfold digits. simpl.
  apply N.ltb_lt in H. now rewrite H.
Qed.

Lemma digits_step (n : N) :
  (10 <= n)%N -> digits n = digits (n / 10) ++ String (digit n) EmptyString.
Proof.
  intros H. pose proof (log2_div10 n H) as Hlog.
  unfold digits at 1. simpl.
  apply N.ltb_ge in H. rewrite H.
  rewrite digits_aux_acc. f_equal.
  unfold digits. apply digits_aux_fuel; lia.
Qed.

Lemma all_chars_append (p : ascii -> bool) (s t : string) :
  all_chars p (s ++ t) = all_chars p s && all_chars p t.
Proof.
  induction s as [| c s IH]; simpl; [reflexivity |].
  now rewrite IH, andb_assoc.
Qed.

Lemma digits_aux_all_digits (fuel : nat) (n : N) (acc : string) :
  all_chars is_digit acc = true ->
  all_chars is_digit (digits_aux fuel n acc) = true.
Proof.
  revert n acc. induction fuel as [| fuel IH]; intros n acc H; simpl.
  - exact H.
  - assert (H' : all_chars is_digit (String (digit n) acc) = true)
      by (simpl; now rewrite digit_is_digit).
    destruct (n <? 10)%N; [exact H' | now apply IH].
Qed.

(** [digits] holds decimal digits only: no sign, no separator. *)
Lemma digits_all_digits (n : N) : all_chars is_digit (digits n) = true.
Proof. apply digits_aux_all_digits. reflexivity. Qed.

(** Rounding to nearest: the result is within half a unit. *)
Lemma round_half_even_nearest (num den : N) :
  (den <> 0)%N ->
  let q := round_half_even num den in
  (2 * q * den <= 2 * num + den)%N /\ (2 * num <= 2 * q * den + den)%N.
Proof.
  intros Hden q. subst q. unfold round_half_even.
  pose proof (N.div_mod num den Hden) as Hdm.
  pose proof (N.mod_lt num den Hden) as Hlt.
  set (k := (num / den)%N) in *. set (r := (num mod den)%N) in *.
  clearbody k r. subst num.
  destruct (N.compare_spec (2 * r) den) as [E | E | E].
  - destruct (N.even k); split; nia.
  - split; nia.
  - split; nia.
Qed.

(** A tie goes to the even neighbour. *)
Lemma round_half_even_tie (num den : N) :
  (2 * (num mod den) = den)%N -> N.even (round_half_even num den) = true.
Proof.
  intros H. unfold round_half_even.
  rewrite (proj2 (N.compare_eq_iff _ _) H).
  destruct (N.even (num / den)) eqn:E; [exact E |].
  rewrite N.add_1_r, N.even_succ. rewrite <- N.negb_even, E. reflexivity.
Qed.

(* ===================================================================== *)
(** ** Two decimals and groups of three *)
(* ===================================================================== *)

(** The [.2f] text of a finite number ends with a point and two digits. *)
Lemma float_f2_two_decimals (g : bool) (neg : bool) (m : N) (e : Z) :
  exists ip d1 d2,
    float_f2 g (Finite neg m e)
    = sign neg ++ ip ++ "." ++ String d1 (String d2 EmptyString)
    /\ is_digit d1 = true /\ is_digit d2 = true.
Proof.
  unfold float_f2, fixed2.
  eexists _, _, _. split; [reflexivity |].
  split; apply digit_is_digit.
Qed.

(** An infinity has no decimals. *)
Lemma float_f2_infinity (g neg : bool) :
  float_f2 g (Infinity neg) = sign neg ++ "inf".
Proof. reflexivity. Qed.

(** Without the [,] option the integer digits are not grouped. *)
Lemma float_f2_ungrouped (neg : bool) (m : N) (e : Z) :
  float_f2 false (Finite neg m e)
  = sign neg ++ digits (hundredths m e / 100) ++ "."
    ++ String (digit (hundredths m e / 10))
         (String (digit (hundredths m e)) EmptyString).
Proof. reflexivity. Qed.

Lemma list_ascii_of_append (s t : string) :
  list_ascii_of_string (s ++ t)
  = (list_ascii_of_string s ++ list_ascii_of_string t)%list.
Proof. induction s as [| c s IH]; simpl; [reflexivity | now rewrite IH]. Qed.

Lemma string_of_list_app (l l' : list ascii) :
  string_of_list_ascii (l ++ l')
  = string_of_list_ascii l ++ string_of_list_ascii l'.
Proof. induction l as [| c l IH]; simpl; [reflexivity | now rewrite IH]. Qed.

(** Up to three digits are left as they are. *)
Lemma group3_short (s : string) :
  (String.length s <= 3)%nat -> group3 s = s.
Proof.
  intros H.
  destruct s as [| a [| b [| c [| x s]]]]; try reflexivity.
  simpl in H. lia.
Qed.

(** A comma stands before the last three digits, and the digits before
    them are grouped the same way. *)
Lemma group3_thousands (s : string) (a b c : ascii) :
  s <> EmptyString ->
  group3 (s ++ String a (String b (String c EmptyString)))
  = group3 s ++ "," ++ String a (String b (String c EmptyString)).
Proof.
  intros Hs. unfold group3.
  rewrite list_ascii_of_append, rev_app_distr. simpl.
  destruct (rev (list_ascii_of_string s)) as [| x l] eqn:E.
  - exfalso. apply Hs.
    rewrite <- (string_of_list_ascii_of_string s).
    rewrite <- (rev_involutive (list_ascii_of_string s)), E. reflexivity.
  - cbn [rev]. rewrite <- !app_assoc. rewrite string_of_list_app.
    reflexivity.
Qed.

(* ===================================================================== *)
(** ** Properties of the report *)
(* ===================================================================== *)

(** *** Empty result sets *)

(** C1: what each section prints when its query returns no row.  The
    credentials, transactions and activities sections print their
    heading and a placeholder line; the accounts and ATM state sections
    print their heading and nothing else, no line saying that there is
    no record. *)
Theorem placeholder_lines repr_float (w : world) (d : database) :
  file w = Some d ->
  (technician_credentials d = Some [] ->
   report_credentials repr_float w
   = (Ok tt, emit (heading title_credentials ++ [no_credentials])
               (logged SelectCredentials w)))
  /\ (accounts d = Some [] ->
      report_accounts repr_float w
      = (Ok tt, emit (heading title_accounts) (logged SelectAccounts w)))
  /\ (atm_state d = Some [] ->
      report_atm_state w
      = (Ok tt, emit (heading title_atm_state) (logged SelectAtmState w)))
  /\ (transactions d = Some [] ->
      report_transactions repr_float w
      = (Ok tt, emit (heading title_transactions ++ [no_transactions])
                  (logged SelectTransactions w)))
  /\ (technician_activities d = Some [] ->
      report_activities repr_float w
      = (Ok tt, emit (heading title_activities ++ [no_activities])
                  (logged SelectActivities w))).
Proof.
  intros Hf. repeat split; intros Hr.
  - apply (report_credentials_run repr_float w d Hf [] Hr).
  - apply (report_accounts_run repr_float w d Hf [] Hr).
  - apply (report_atm_state_run w d Hf [] Hr).
  - apply (report_transactions_run repr_float w d Hf [] Hr).
  - apply (report_activities_run repr_float w d Hf [] Hr).
Qed.

(** The whole run on the database whose five tables are empty: the
    heading of the accounts section is followed at once by the heading
    of the ATM state section, and this one by the next. *)
Lemma empty_database_report repr_float :
  stdout (snd (run repr_float (Some empty_database)))
  = (heading title_credentials ++ [no_credentials]
     ++ heading title_accounts
     ++ heading title_atm_state
     ++ heading title_transactions ++ [no_transactions]
     ++ heading title_activities ++ [no_activities])%list.
Proof. reflexivity. Qed.

(** *** Currency *)

(** C2: the amount of an activity is printed as a dollar sign, the
    sign, the digits of the integer part with no separator between them,
    a point and two digits; so 1234.5, which the account, ATM and
    transaction columns print as [1,234.50], is printed [$1234.50] in
    the amount column of an activity. *)
Theorem activity_amount_not_grouped repr_float :
  (forall neg m e,
     exists ip d1 d2,
       amount_str (VFloat (Finite neg m e))
       = Ok ("$" ++ sign neg ++ ip ++ "."
             ++ String d1 (String d2 EmptyString))
       /\ all_chars is_digit ip = true
       /\ is_digit d1 = true /\ is_digit d2 = true)
  /\ format_f2 10 true amount_1234_5 = Ok "  1,234.50"
  /\ format_f2 8 true amount_1234_5 = Ok "1,234.50"
  /\ amount_str amount_1234_5 = Ok "$1234.50"
  /\ activity_line repr_float (refill 7)
     = Ok "ID:   7 | Type: CASH_REFILL     | Amount:   $1234.50 | Description: Refilled cash             | Prev:        N/A | New:        N/A | Time: 2024-01-01 10:00:00".
Proof.
  split; [| repeat split].
  intros neg m e.
  exists (digits (hundredths m e / 100)),
    (digit (hundredths m e / 10)), (digit (hundredths m e)).
  split; [| split; [apply digits_all_digits | split; apply digit_is_digit]].
  unfold amount_str, lit. cbn [fstring rbind format_f2].
  unfold rjust. cbn [Nat.sub spaces]. rewrite append_nil_r.
  reflexivity.
Qed.

(** *** The twenty most recent rows *)



(** *** Absent values *)

Section AbsentValues.

Variable repr_float : float -> string.

Local Abbreviation str := (Py.str repr_float).

(** A credential line is printed only for a row whose four padded
    columns hold strings. *)
Lemma credential_line_inv (r : credential) (line : string) :
  credential_line repr_float r = Ok line ->
  exists u p n ro,
    r = mkCredential (cred_id r) (VStr u) (VStr p) (VStr n) (VStr ro)
          (created_date r) (last_login r).
Proof.
  destruct r as [id u p n ro created ll]. intros H.
  unfold credential_line, lit, field in H.
  cbn [fstring rbind username password full_name role] in H.
  destruct u as [| | | u |]; try discriminate H.
  destruct p as [| | | p |]; try discriminate H.
  destruct n as [| | | n |]; try discriminate H.
  destruct ro as [| | | ro |]; try discriminate H.
  exists u, p, n, ro. reflexivity.
Qed.


(** An activity line is printed only for a row whose type and
    description hold strings and whose three numbers render. *)
Lemma activity_line_inv (r : activity) (line : string) :
  activity_line repr_float r = Ok line ->
  exists ty de a p n,
    r = mkActivity (act_id r) (VStr ty) (act_amount r) (VStr de)
          (previous_value r) (new_value r) (act_timestamp r)
    /\ amount_str (act_amount r) = Ok a
    /\ value_str (previous_value r) = Ok p
    /\ value_str (new_value r) = Ok n.
Proof.
  destruct r as [id ty am de pv nv ts]. intros H.
  unfold activity_line in H.
  cbn [act_amount previous_value new_value act_id activity_type
       description act_timestamp] in *.
  destruct (amount_str am) as [a |]; [| discriminate H].
  destruct (value_str pv) as [p |]; [| discriminate H].
  destruct (value_str nv) as [n |]; [| discriminate H].
  unfold lit, field in H. cbn [fstring rbind] in H.
  destruct ty as [| | | ty |]; try discriminate H.
  destruct de as [| | | de |]; try discriminate H.
  exists ty, de, a, p, n. repeat split.
Qed.



End AbsentValues.

(** *** Column widths *)

(** C5: a string column of declared width [w] is printed as the string
    followed by spaces up to [w] characters: exactly [w] characters when
    the string has at most [w], the whole string, not truncated, when it
    has more; a number column is the number after spaces, [w] characters
    or more.  The credential line pads the username to 15, the password
    to 10, the full name to 25 and the role to 10. *)
Theorem column_widths repr_float :
  (forall w s, format_s w (VStr s) = Ok (ljust w s))
  /\ (forall w s, (String.length s <= w)%nat ->
        ljust w s = s ++ spaces (w - String.length s)
        /\ String.length (ljust w s) = w)
  /\ (forall w s, (w <= String.length s)%nat -> ljust w s = s)
  /\ (forall w s, String.length (rjust w s) = Nat.max w (String.length s))
  /\ (forall id u p n ro created ll,
        credential_line repr_float
          (mkCredential id (VStr u) (VStr p) (VStr n) (VStr ro) created ll)
        = Ok ("ID: " ++ str repr_float id
              ++ " | Username: " ++ ljust 15 u
              ++ " | Password: " ++ ljust 10 p
              ++ " | Name: " ++ ljust 25 n
              ++ " | Role: " ++ ljust 10 ro
              ++ " | Created: " ++ str repr_float created
              ++ " | Last Login: "
              ++ str repr_float (if truthy ll then ll else VStr "Never"))).
Proof.
  repeat split.
  - now apply length_ljust_fits.
  - intros w s. apply ljust_long.
  - intros w s. apply length_rjust.
  - intros. apply credential_line_text.
Qed.

(** *** The connection *)

(** C6: a run that completes ends with the connection closed; a run in
    which a query or the formatting of a row raises ends with the
    connection still open, [conn.close()] not having been reached; a run
    that cannot open the file never has a connection. *)
Theorem connection_after_run repr_float (f : option database) :
  conn (snd (run repr_float f))
  = match fst (run repr_float f), f with
    | Ok _, _ => Closed
    | Raised _, Some _ => Open
    | Raised _, None => NotConnected
    end.
Proof.
  destruct f as [d |]; [| reflexivity].
  rewrite run_connect.
  pose proof (reports_then_close repr_float
                (mkWorld (Some d) Open [] []) eq_refl) as H.
  destruct (bind _ _ _) as [[u | e] w']; exact H.
Qed.

(** *** The five sections *)

Lemma section_names_caps :
  Forall2 (fun name title =>
             all_caps name = true /\ String.prefix name title = true)
    section_names titles.
Proof. repeat constructor. Qed.

(** C7: on a store that conforms to the data model, empty tables
    included, the run completes and prints the full report: five
    sections in the order credentials, accounts, ATM state, transactions,
    activities, each introduced by a rule of 80 [=] after an empty line,
    its title and a second rule; these three strings are printed once per
    section and no row line is one of them.  Each title starts with the
    name of its section in capitals. *)
Theorem five_sections repr_float (d : database) :
  conforms d = true ->
  fst (run repr_float (Some d)) = Ok tt
  /\ stdout (snd (run repr_float (Some d))) = full_report repr_float d
  /\ filter is_heading (stdout (snd (run repr_float (Some d))))
     = List.concat (map heading titles)
  /\ String.length rule = 80%nat
  /\ nl_rule = String newline rule
  /\ Forall2 (fun name title =>
                all_caps name = true /\ String.prefix name title = true)
       section_names titles.
Proof.
  intros H. rewrite (run_conforming repr_float d H). cbn [fst snd stdout].
  repeat split.
  - apply full_report_headings.
  - apply section_names_caps.
Qed.

(** *** The store *)

(** C8: a run leaves the database file as it found it, and every
    statement it executes is a [SELECT]. *)
Theorem store_only_read repr_float (f : option database) :
  file (snd (run repr_float f)) = f
  /\ Forall (fun s => is_select s = true)
       (executed (snd (run repr_float f))).
Proof.
  split; [apply run_same_file |].
  apply (script_only_selects repr_float (start f)). constructor.
Qed.


(* ===================================================================== *)
(** ** The properties on sample stores *)
(* ===================================================================== *)

(** The credentials and accounts sections on empty tables. *)
Lemma placeholder_lines_sample :
  file empty_world = Some empty_database
  /\ technician_credentials empty_database = Some []
  /\ accounts empty_database = Some []
  /\ report_credentials repr_float_unused empty_world
     = (Ok tt, emit (heading title_credentials ++ [no_credentials])
                 (logged SelectCredentials empty_world))
  /\ report_accounts repr_float_unused empty_world
     = (Ok tt, emit (heading title_accounts)
                 (logged SelectAccounts empty_world)).
Proof.
  destruct (placeholder_lines repr_float_unused empty_world empty_database
              eq_refl) as (Hc & Ha & _).
  split; [reflexivity |]. split; [reflexivity |]. split; [reflexivity |].
  split; [exact (Hc eq_refl) | exact (Ha eq_refl)].
Defined.




(** A username of five characters is padded to fifteen. *)
Lemma column_widths_sample :
  (String.length "tech1" <= 15)%nat
  /\ ljust 15 "tech1" = "tech1          "
  /\ String.length (ljust 15 "tech1") = 15%nat.
Proof.
  assert (H : (String.length "tech1" <= 15)%nat)
    by (apply Nat.leb_le; reflexivity).
  split; [exact H |].
  exact (proj1 (proj2 (column_widths repr_float_unused)) 15%nat "tech1" H).
Defined.

(** A username of 21 characters is printed whole in the column declared
    15 wide, and the columns after it start six characters further. *)
Lemma long_username_not_truncated :
  String.length long_username = 21%nat
  /\ format_s 15 (VStr long_username) = Ok long_username
  /\ credential_line repr_float_unused
       (mkCredential (VInt 1) (VStr long_username) (VStr "pw123")
          (VStr "Technician One") (VStr "technician")
          (VStr "2024-01-01 09:00:00") VNone)
     = Ok "ID: 1 | Username: administrator_account | Password: pw123      | Name: Technician One            | Role: technician | Created: 2024-01-01 09:00:00 | Last Login: Never".
Proof. repeat split. Qed.

(** On a file without tables the first query raises, and the run ends
    with the connection open. *)
Lemma failed_query_leaves_connection_open :
  run repr_float_unused (Some blank_file)
  = (Raised OperationalError,
     mkWorld (Some blank_file) Open [ sql SelectCredentials ]
       (heading title_credentials))
  /\ conn (snd (run repr_float_unused (Some blank_file))) <> Closed.
Proof. split; [reflexivity | discriminate]. Qed.

(** The title of the accounts section, the sixth string a run prints, has
    lower-case letters. *)
Lemma accounts_title_not_all_caps :
  nth_error (stdout (snd (run repr_float_unused (Some empty_database)))) 5
  = Some title_accounts
  /\ all_caps title_accounts = false.
Proof. split; reflexivity. Qed.

(** The run on the store of the end-to-end scenario. *)
Lemma five_sections_sample :
  conforms scenario_database = true
  /\ fst (run repr_float_unused (Some scenario_database)) = Ok tt
  /\ filter is_heading
       (stdout (snd (run repr_float_unused (Some scenario_database))))
     = List.concat (map heading titles).
Proof.
  assert (H : conforms scenario_database = true) by reflexivity.
  destruct (five_sections repr_float_unused scenario_database H)
    as (Hok & _ & Hheadings & _).
  split; [exact H |]. split; [exact Hok | exact Hheadings].
Defined.

(* ===================================================================== *)
(** ** Further properties: the numbers of the report *)
(* ===================================================================== *)

Lemma digit_value_digit (n : N) : digit_value (digit n) = (n mod 10)%N.
Proof.
  unfold digit_value, digit.
  assert (H : (n mod 10 < 10)%N) by (apply N.mod_lt; lia).
  assert (H' : (48 + n mod 10 < 256)%N) by lia.
  rewrite (N_ascii_embedding _ H'). rewrite N.add_comm. apply N.add_sub.
Qed.

Lemma number_from_append (acc : N) (s t : string) :
  number_from acc (s ++ t) = number_from (number_from acc s) t.
Proof.
  revert acc. induction s as [| c s IH]; intros acc; simpl;
    [reflexivity | apply IH].
Qed.

(** The digits of a natural number denote it. *)
Lemma number_digits (n : N) : number (digits n) = n.
Proof.
  induction n as [n IH] using (well_founded_induction N.lt_wf_0).
  destruct (N.ltb_spec n 10) as [H | H].
  - rewrite digits_small by exact H.
    unfold number. cbn [number_from]. rewrite digit_value_digit.
    rewrite N.mod_small by exact H. apply N.add_0_l.
  - rewrite digits_step by exact H.
    unfold number. rewrite number_from_append.
    fold (number (digits (n / 10))).
    rewrite IH by (apply N.div_lt; lia).
    cbn [number_from]. rewrite digit_value_digit.
    symmetry. apply N.div_mod. discriminate.
Qed.

Lemma digits_nonempty (n : N) :
  exists c s, digits n = String c s /\ is_digit c = true.
Proof.
  pose proof (digits_all_digits n) as H.
  destruct (digits n) as [| c s] eqn:E.
  - exfalso. destruct (N.ltb_spec n 10) as [Hn | Hn].
    + rewrite digits_small in E by exact Hn. discriminate.
    + rewrite digits_step in E by exact Hn.
      destruct (digits (n / 10)); discriminate.
  - simpl in H. apply andb_true_iff in H as [Hc _]. eauto.
Qed.

Lemma is_digit_not (c d : ascii) :
  is_digit c = true -> is_digit d = false -> Ascii.eqb c d = false.
Proof.
  intros Hc Hd. destruct (Ascii.eqb_spec c d) as [-> |]; congruence.
Qed.

Lemma lstrip_spaces (n : nat) (c : ascii) (s : string) :
  Ascii.eqb c " " = false -> lstrip (spaces n ++ String c s) = String c s.
Proof.
  intros H. induction n as [| n IH]; simpl.
  - now rewrite H.
  - exact IH.
Qed.

Lemma read_int_str_int (z : Z) : read_int (str_int z) = z.
Proof.
  unfold str_int. destruct (Z.ltb_spec z 0) as [H | H].
  - simpl. rewrite number_digits. lia.
  - destruct (digits_nonempty (Z.abs_N z)) as (c & s & E & Hc).
    pose proof (number_digits (Z.abs_N z)) as Hn.
    rewrite E in *. simpl.
    rewrite (is_digit_not c "-" Hc eq_refl). rewrite Hn. lia.
Qed.

(** X1: an integer column printed with a width (the [3d] of the ID,
    paper and ink columns) reads back as the stored integer: after the
    padding spaces come the sign and the decimal digits of the value,
    whatever the width; so two rows with different ids never print the
    same ID. *)
Theorem integer_column_reads_back (w : nat) (z : Z) :
  exists text,
    format_d w (VInt z) = Ok text
    /\ read_int (lstrip text) = z
    /\ (forall z', format_d w (VInt z') = Ok text -> z' = z).
Proof.
  assert (Hread : forall x, read_int (lstrip (rjust w (str_int x))) = x).
  { intros x. unfold rjust.
    assert (exists c s, str_int x = String c s /\ Ascii.eqb c " " = false)
      as (c & s & E & Hc).
    { unfold str_int. destruct (x <? 0).
      - eexists _, _. split; [reflexivity | reflexivity].
      - destruct (digits_nonempty (Z.abs_N x)) as (c & s & E & Hc).
        exists c, s. split; [exact E |].
        apply (is_digit_not c " " Hc eq_refl). }
    pose proof (read_int_str_int x) as Hx.
    rewrite E in *. rewrite (lstrip_spaces _ c s Hc). exact Hx. }
  exists (rjust w (str_int z)). split; [reflexivity |].
  split; [apply Hread |].
  intros z' H. simpl in H. injection H as H.
  rewrite <- (Hread z'), H. apply Hread.
Qed.

(** *** Groups of three digits *)

Lemma remove_commas_filter (l : list ascii) :
  remove_commas (string_of_list_ascii l)
  = string_of_list_ascii (filter not_comma l).
Proof.
  induction l as [| c l IH]; simpl; [reflexivity |].
  unfold not_comma at 1. destruct (Ascii.eqb c ","); simpl; now rewrite IH.
Qed.

Lemma filter_group_rev (l : list ascii) :
  filter not_comma (group_rev l) = filter not_comma l.
Proof.
  assert (H : forall n l, (List.length l <= n)%nat ->
                filter not_comma (group_rev l) = filter not_comma l).
  { clear l. induction n as [| n IH]; intros l Hl.
    - destruct l; [reflexivity | simpl in Hl; lia].
    - destruct l as [| a [| b [| c [| d rest]]]]; try reflexivity.
      change (group_rev (a :: b :: c :: d :: rest))
        with (a :: b :: c :: ","%char :: group_rev (d :: rest)).
      cbn [filter]. change (not_comma ",") with false. cbv iota.
      rewrite (IH (d :: rest)) by (simpl in *; lia).
      reflexivity. }
  apply (H (List.length l)). lia.
Qed.

Lemma filter_not_comma_rev (l : list ascii) :
  filter not_comma (rev l) = rev (filter not_comma l).
Proof.
  induction l as [| c l IH]; simpl; [reflexivity |].
  rewrite filter_app, IH. simpl. destruct (not_comma c); simpl.
  - reflexivity.
  - now rewrite app_nil_r.
Qed.

Lemma remove_commas_group3 (s : string) :
  remove_commas (group3 s) = remove_commas s.
Proof.
  unfold group3. rewrite remove_commas_filter.
  rewrite filter_not_comma_rev, filter_group_rev, filter_not_comma_rev.
  rewrite rev_involutive, <- remove_commas_filter.
  now rewrite string_of_list_ascii_of_string.
Qed.

Lemma remove_commas_append (s t : string) :
  remove_commas (s ++ t) = remove_commas s ++ remove_commas t.
Proof.
  induction s as [| c s IH]; simpl; [reflexivity |].
  destruct (Ascii.eqb c ","); simpl; now rewrite IH.
Qed.

Lemma remove_commas_digits (s : string) :
  all_chars is_digit s = true -> remove_commas s = s.
Proof.
  induction s as [| c s IH]; simpl; [reflexivity |].
  intros H. apply andb_true_iff in H as [Hc Hs].
  rewrite (is_digit_not c "," Hc eq_refl). now rewrite IH.
Qed.

Lemma remove_commas_sign (neg : bool) : remove_commas (sign neg) = sign neg.
Proof. destruct neg; reflexivity. Qed.

(** X2: the [,] option only inserts commas: the text of a number under
    [,.2f] (account balance, ATM cash, transaction amounts), with its
    commas removed, is its text under [.2f]; no digit, sign or point is
    changed or lost. *)
Theorem grouping_only_inserts_commas (x : float) :
  remove_commas (float_f2 true x) = float_f2 false x.
Proof.
  destruct x as [neg m e | neg]; unfold float_f2.
  - unfold fixed2. rewrite !remove_commas_append, remove_commas_sign.
    rewrite remove_commas_group3.
    rewrite (remove_commas_digits (digits _)) by apply digits_all_digits.
    f_equal. f_equal. cbn [remove_commas Ascii.eqb Bool.eqb].
    rewrite (is_digit_not _ "," (digit_is_digit _) eq_refl).
    rewrite (is_digit_not _ "," (digit_is_digit _) eq_refl).
    reflexivity.
  - rewrite remove_commas_append, remove_commas_sign. reflexivity.
Qed.

(** X3: where the commas stand.  Up to three digits are printed as they
    are; a longer run of digits has a comma before its last three
    digits, and the digits before them are grouped in the same way. *)
Theorem grouping_by_thousands :
  (forall s, (String.length s <= 3)%nat -> group3 s = s)
  /\ (forall s a b c,
        s <> EmptyString ->
        group3 (s ++ String a (String b (String c EmptyString)))
        = group3 s ++ "," ++ String a (String b (String c EmptyString))).
Proof. split; [apply group3_short | apply group3_thousands]. Qed.

(** *** Rounding to two decimals *)

(** X4: the two decimals are those of the nearest hundredth.  For a
    float [m * 2^e] the number of hundredths printed is exact when the
    float is an integer ([0 <= e]); otherwise it is within half a
    hundredth of [100 * m / 2^(-e)], and even when the float lies
    exactly between two hundredths. *)
Theorem two_decimals_nearest (m : N) (e : Z) :
  (0 <= e -> hundredths m e = (m * 2 ^ Z.to_N e * 100)%N)
  /\ (e < 0 ->
      let d := (2 ^ Z.to_N (- e))%N in
      let h := hundredths m e in
      (2 * h * d <= 2 * (m * 100) + d)%N
      /\ (2 * (m * 100) <= 2 * h * d + d)%N
      /\ ((2 * ((m * 100) mod d) = d)%N -> N.even h = true)).
Proof.
  unfold hundredths. split; intros H.
  - apply Z.leb_le in H. now rewrite H.
  - apply Z.leb_gt in H. rewrite H. cbv zeta.
    assert (Hd : (2 ^ Z.to_N (- e) <> 0)%N) by (apply N.pow_nonzero; lia).
    destruct (round_half_even_nearest (m * 100) _ Hd) as [H1 H2].
    repeat split; [exact H1 | exact H2 | apply round_half_even_tie].
Qed.

(** *** Integer amounts *)

Lemma digit_multiple_of_ten (n : N) : digit (n * 10) = "0"%char.
Proof.
  unfold digit. rewrite N.Div0.mod_mul. reflexivity.
Qed.

Lemma float_of_int_exact (z : Z) :
  Z.abs z < 2 ^ 53 ->
  float_of_int z = Ok (Finite (z <? 0) (Z.abs_N z) 0).
Proof.
  intros H. unfold float_of_int.
  assert (Hs : (N.succ (N.log2 (Z.abs_N z)) <= 53)%N).
  { destruct (N.eq_dec (Z.abs_N z) 0) as [E | E].
    - rewrite E. simpl. lia.
    - apply N.le_succ_l. apply N.log2_lt_pow2; [lia |].
      change (2 ^ 53)%N with 9007199254740992%N.
      change (2 ^ 53) with 9007199254740992 in H. lia. }
  apply N.leb_le in Hs. now rewrite Hs.
Qed.

(** X5: an amount stored as an INTEGER below 2^53 in absolute value is
    printed exactly, as its digits (grouped under [,]) followed by
    [.00]; it is printed as the REAL of the same value would be. *)
Theorem integer_amount_prints_00 (w : nat) (g : bool) (z : Z) :
  Z.abs z < 2 ^ 53 ->
  format_f2 w g (VInt z)
  = Ok (rjust w (sign (z <? 0)
                 ++ (if g then group3 (digits (Z.abs_N z))
                     else digits (Z.abs_N z))
                 ++ ".00"))
  /\ format_f2 w g (VInt z)
     = format_f2 w g (VFloat (Finite (z <? 0) (Z.abs_N z) 0)).
Proof.
  intros H. unfold format_f2. rewrite (float_of_int_exact z H).
  cbn [rbind]. split; [| reflexivity].
  unfold float_f2, fixed2, hundredths. cbn [Z.leb Z.compare Z.to_N].
  rewrite N.pow_0_r, N.mul_1_r.
  set (a := Z.abs_N z).
  assert (E : (a * 100 = a * 10 * 10)%N) by lia.
  assert (E1 : (a * 100 / 100 = a)%N) by (apply N.div_mul; discriminate).
  assert (E2 : digit (a * 100 / 10) = "0"%char).
  { rewrite E, N.div_mul by discriminate. apply digit_multiple_of_ten. }
  assert (E3 : digit (a * 100) = "0"%char).
  { rewrite E. apply digit_multiple_of_ten. }
  rewrite E1, E2, E3. reflexivity.
Qed.

(** *** Absent and zero values of an activity *)

Lemma ungrouped_starts (x : float) :
  exists c s, float_f2 false x = String c s /\ Ascii.eqb c "N" = false.
Proof.
  destruct x as [neg m e | neg]; unfold float_f2.
  - destruct neg; [eexists _, _; split; reflexivity |].
    unfold fixed2. cbn [sign append].
    destruct (digits_nonempty (hundredths m e / 100)) as (c & s & E & Hc).
    rewrite E. cbn [append]. eexists c, _. split; [reflexivity |].
    apply (is_digit_not c "N" Hc eq_refl).
  - destruct neg; eexists _, _; split; reflexivity.
Qed.

Lemma value_str_not_na (v : value) :
  v <> VNone -> value_str v <> Ok "N/A".
Proof.
  intros Hv H. destruct v as [| z | x | s | b];
    cbn [value_str format_f2] in H; try discriminate H; [congruence | |].
  - destruct (float_of_int z) as [x |]; [| discriminate H].
    cbn [rbind] in H. destruct (ungrouped_starts x) as (c & s & E & Hc).
    unfold rjust in H. rewrite E in H. cbn [Nat.sub spaces append] in H.
    injection H as H _. rewrite H in Hc. discriminate Hc.
  - destruct (ungrouped_starts x) as (c & s & E & Hc).
    unfold rjust in H. rewrite E in H. cbn [Nat.sub spaces append] in H.
    injection H as H _. rewrite H in Hc. discriminate Hc.
Qed.

Lemma amount_str_not_na (v : value) :
  v <> VNone -> amount_str v <> Ok "N/A".
Proof.
  intros Hv H. destruct v as [| z | x | s | b];
    unfold amount_str, lit in H; cbn [fstring rbind] in H;
    [congruence | | | |].
  - destruct (format_f2 0 false (VInt z)); discriminate H.
  - destruct (format_f2 0 false (VFloat x)); discriminate H.
  - destruct (format_f2 0 false (VStr s)); discriminate H.
  - destruct (format_f2 0 false (VBytes b)); discriminate H.
Qed.

(** X6: in an activity only NULL is printed as [N/A]: the amount, the
    previous value and the new value print [N/A] exactly when the column
    is NULL, and a zero is printed as a number ([$0.00], [0.00]), unlike
    the last login of a credential, where every falsy value prints
    [Never]. *)
Theorem na_only_for_null (v : value) :
  (amount_str v = Ok "N/A" <-> v = VNone)
  /\ (value_str v = Ok "N/A" <-> v = VNone)
  /\ amount_str (VInt 0) = Ok "$0.00"
  /\ value_str (VInt 0) = Ok "0.00"
  /\ amount_str (VFloat (Finite false 0 0)) = Ok "$0.00".
Proof.
  split; [| split; [| repeat split]].
  - split; [| intros ->; reflexivity].
    intros H. destruct v; try reflexivity;
      exfalso; revert H; apply amount_str_not_na; discriminate.
  - split; [| intros ->; reflexivity].
    intros H. destruct v; try reflexivity;
      exfalso; revert H; apply value_str_not_na; discriminate.
Qed.

(* ===================================================================== *)
(** ** Further properties: rows, loops and queries *)
(* ===================================================================== *)

(** *** Which credentials are printed *)



(** *** What a loop prints *)

Lemma render_lines {A} (f : A -> result string) (rows : list A) lines :
  Forall2 (fun r line => f r = Ok line) rows lines ->
  render f rows = (lines, None).
Proof.
  induction 1 as [| r line rows lines Hr _ IH]; simpl; [reflexivity |].
  now rewrite Hr, IH.
Qed.

Lemma render_until_error {A} (f : A -> result string)
    (good : list A) (bad : A) (rest : list A) lines e :
  Forall2 (fun r line => f r = Ok line) good lines ->
  f bad = Raised e ->
  render f (good ++ bad :: rest) = (lines, Some e).
Proof.
  intros Hg Hb.
  induction Hg as [| r line rows lines' Hr _ IH]; simpl.
  - now rewrite Hb.
  - now rewrite Hr, IH.
Qed.

Lemma rows_ok_lines {A} (ok : A -> bool) (f : A -> result string) rows :
  (forall x, ok x = true -> exists s, f x = Ok s) ->
  forallb ok rows = true ->
  exists lines, Forall2 (fun r line => f r = Ok line) rows lines.
Proof.
  intros Hf. induction rows as [| r rows IH]; simpl; intros H.
  - exists []. constructor.
  - apply andb_true_iff in H as [Hr Hrows].
    destruct (Hf r Hr) as [s Hs]. destruct (IH Hrows) as [lines Hl].
    exists (s :: lines). now constructor.
Qed.

(** X8: the loop of a section stops at the first row whose line raises:
    the lines of the rows before it have been printed, in the order of
    the rows, that row and the rows after it print nothing, and the
    exception leaves the loop. *)
Theorem loop_stops_at_first_error {A} (f : A -> result string)
    (good : list A) (bad : A) (rest : list A) (lines : list string)
    (e : exn) (w : world) :
  Forall2 (fun r line => f r = Ok line) good lines ->
  f bad = Raised e ->
  for_each (good ++ bad :: rest)
    (fun r => line <- eval (f r) ;; print line) w
  = (Raised e, emit lines w).
Proof.
  intros Hg Hb. rewrite for_each_render.
  now rewrite (render_until_error f good bad rest lines e Hg Hb).
Qed.

(** X9: the accounts and ATM state sections have no row limit: when the
    rows conform to the data model, each section prints its heading and
    then one line per row of the table, in storage order, each the line
    of its row. *)
Theorem every_row_printed repr_float (w : world) (d : database) :
  file w = Some d ->
  (forall rows,
     accounts d = Some rows -> forallb account_ok rows = true ->
     exists lines,
       report_accounts repr_float w
       = (Ok tt, emit (heading title_accounts ++ lines)
                   (logged SelectAccounts w))
       /\ Forall2 (fun r line => account_line repr_float r = Ok line)
            rows lines)
  /\ (forall rows,
        atm_state d = Some rows -> forallb machine_state_ok rows = true ->
        exists lines,
          report_atm_state w
          = (Ok tt, emit (heading title_atm_state ++ lines)
                      (logged SelectAtmState w))
          /\ Forall2 (fun r line => machine_state_line r = Ok line)
               rows lines).
Proof.
  intros Hf. split; intros rows Hr Hok.
  - destruct (rows_ok_lines account_ok (account_line repr_float) rows
                (account_line_ok repr_float) Hok) as [lines Hl].
    exists lines. split; [| exact Hl].
    pose proof (report_accounts_run repr_float w d Hf rows Hr) as E.
    cbv zeta in E. rewrite E, (render_lines _ _ _ Hl). reflexivity.
  - destruct (rows_ok_lines machine_state_ok machine_state_line rows
                machine_state_line_ok Hok) as [lines Hl].
    exists lines. split; [| exact Hl].
    pose proof (report_atm_state_run w d Hf rows Hr) as E.
    cbv zeta in E. rewrite E, (render_lines _ _ _ Hl). reflexivity.
Qed.

(** X10: a section whose table is missing prints its heading, executes
    its query, which raises [OperationalError], and prints nothing
    more; this holds for each of the five sections. *)
Theorem missing_table_raises repr_float (w : world) (d : database) :
  file w = Some d ->
  (technician_credentials d = None ->
   report_credentials repr_float w
   = (Raised OperationalError,
      emit (heading title_credentials) (logged SelectCredentials w)))
  /\ (accounts d = None ->
      report_accounts repr_float w
      = (Raised OperationalError,
         emit (heading title_accounts) (logged SelectAccounts w)))
  /\ (atm_state d = None ->
      report_atm_state w
      = (Raised OperationalError,
         emit (heading title_atm_state) (logged SelectAtmState w)))
  /\ (transactions d = None ->
      report_transactions repr_float w
      = (Raised OperationalError,
         emit (heading title_transactions) (logged SelectTransactions w)))
  /\ (technician_activities d = None ->
      report_activities repr_float w
      = (Raised OperationalError,
         emit (heading title_activities) (logged SelectActivities w))).
Proof.
  intros Hf. repeat split; intros Hr.
  - apply (section_no_table (q := SelectCredentials) _ _ w d Hf Hr).
  - apply (section_no_table (q := SelectAccounts) _ _ w d Hf Hr).
  - apply (section_no_table (q := SelectAtmState) _ _ w d Hf Hr).
  - apply (section_no_table (q := SelectTransactions) _ _ w d Hf).
    simpl. now rewrite Hr.
  - apply (section_no_table (q := SelectActivities) _ _ w d Hf).
    simpl. now rewrite Hr.
Qed.

(** *** The most recent rows *)

Section MostRecent.

Context {R : Type} (key : R -> Z).

Lemma sorted_split (n : nat) (l : list R) :
  StronglySorted (fun a b => key a >= key b) l ->
  forall a b, In a (firstn n l) -> In b (skipn n l) -> key b <= key a.
Proof.
  revert n. induction l as [| r l IH]; intros n Hs a b Ha Hb.
  - rewrite firstn_nil in Ha. destruct Ha.
  - destruct n as [| n]; [destruct Ha |].
    inversion Hs as [| ? ? Hl Hall]; subst. simpl in Ha, Hb.
    destruct Ha as [<- | Ha].
    + rewrite Forall_forall in Hall.
      assert (In b l).
      { rewrite <- (firstn_skipn n l). apply in_or_app. now right. }
      specialize (Hall b H). lia.
    + now apply (IH n Hl).
Qed.

(** A decreasing order of given rows is unique. *)
Lemma decreasing_perm_unique (l1 l2 : list R) :
  decreasing key l1 -> decreasing key l2 -> Permutation l1 l2 -> l1 = l2.
Proof.
  unfold decreasing. revert l2.
  induction l1 as [| a t1 IH]; intros l2 H1 H2 Hp.
  - apply Permutation_nil in Hp. now subst.
  - destruct l2 as [| b t2].
    + apply Permutation_sym, Permutation_nil in Hp. discriminate.
    + inversion H1 as [| ? ? Ht1 Ha]; subst.
      inversion H2 as [| ? ? Ht2 Hb]; subst.
      rewrite Forall_forall in Ha, Hb.
      assert (Hab : a = b).
      { assert (Ina : In a (b :: t2))
          by (eapply Permutation_in; [exact Hp | now left]).
        assert (Inb : In b (a :: t1))
          by (eapply Permutation_in;
              [apply Permutation_sym; exact Hp | now left]).
        destruct Ina as [E | Ina]; [now symmetry |].
        destruct Inb as [E | Inb]; [exact E |].
        specialize (Ha b Inb). specialize (Hb a Ina). lia. }
      subst b. f_equal. apply IH; try assumption.
      eapply Permutation_cons_inv, Hp.
Qed.

(** X11: the rows a query with [ORDER BY id DESC LIMIT 20] returns are
    the most recent ones: there are [min 20 n] of them for a table of
    [n] rows, they and the rows left out make up the table, and no row
    left out has a larger id than a returned row. *)
Theorem most_recent_rows (rows : list R) :
  let emitted := order_by_desc_limit key rows in
  List.length emitted = Nat.min 20 (List.length rows)
  /\ exists left_out,
       Permutation rows (emitted ++ left_out)
       /\ forall a b, In a emitted -> In b left_out -> key b <= key a.
Proof.
  intros emitted. subst emitted. unfold order_by_desc_limit. split.
  - rewrite length_firstn, length_order_by_desc. reflexivity.
  - exists (skipn LIMIT (order_by_desc key rows)). split.
    + rewrite firstn_skipn. apply order_by_desc_perm.
    + apply sorted_split, order_by_desc_sorted.
Qed.

(** X12: when no two rows share an id, what the query returns does not
    depend on the order in which the table stores its rows. *)
Theorem storage_order_irrelevant (rows rows' : list R) :
  NoDup (map key rows) -> Permutation rows rows' ->
  order_by_desc_limit key rows = order_by_desc_limit key rows'.
Proof.
  intros Hn Hp. unfold order_by_desc_limit. f_equal.
  assert (Hn' : NoDup (map key rows')).
  { eapply Permutation_NoDup; [apply Permutation_map, Hp | exact Hn]. }
  apply decreasing_perm_unique.
  - apply sorted_nodup_decreasing; [apply order_by_desc_sorted |].
    eapply Permutation_NoDup; [| exact Hn].
    apply Permutation_map, order_by_desc_perm.
  - apply sorted_nodup_decreasing; [apply order_by_desc_sorted |].
    eapply Permutation_NoDup; [| exact Hn'].
    apply Permutation_map, order_by_desc_perm.
  - eapply perm_trans; [apply Permutation_sym, order_by_desc_perm |].
    eapply perm_trans; [exact Hp | apply order_by_desc_perm].
Qed.

End MostRecent.

(* ===================================================================== *)
(** ** Further properties: the whole run *)
(* ===================================================================== *)

Lemma bind_outcome {B} (m : M unit) (k : unit -> M B) w e w1 :
  m w = (outcome e, w1) ->
  bind m k w = match e with
               | None => k tt w1
               | Some x => (Raised x, w1)
               end.
Proof.
  intros H. unfold bind. rewrite H. destruct e; reflexivity.
Qed.

Section SectionResults.

Variable repr_float : float -> string.
Variables (w : world) (d : database).
Hypothesis Hfile : file w = Some d.

Lemma report_credentials_result :
  let r := section_result title_credentials
             (section_body no_credentials (credential_line repr_float))
             (technician_credentials d) in
  report_credentials repr_float w
  = (outcome (snd r), emit (fst r) (logged SelectCredentials w)).
Proof.
  cbv zeta. destruct (technician_credentials d) as [rows |] eqn:E.
  - apply (report_credentials_run repr_float w d Hfile rows E).
  - apply (section_no_table (q := SelectCredentials) _ _ w d Hfile E).
Qed.

Lemma report_accounts_result :
  let r := section_result title_accounts
             (render (account_line repr_float)) (accounts d) in
  report_accounts repr_float w
  = (outcome (snd r), emit (fst r) (logged SelectAccounts w)).
Proof.
  cbv zeta. destruct (accounts d) as [rows |] eqn:E.
  - apply (report_accounts_run repr_float w d Hfile rows E).
  - apply (section_no_table (q := SelectAccounts) _ _ w d Hfile E).
Qed.

Lemma report_atm_state_result :
  let r := section_result title_atm_state
             (render machine_state_line) (atm_state d) in
  report_atm_state w
  = (outcome (snd r), emit (fst r) (logged SelectAtmState w)).
Proof.
  cbv zeta. destruct (atm_state d) as [rows |] eqn:E.
  - apply (report_atm_state_run w d Hfile rows E).
  - apply (section_no_table (q := SelectAtmState) _ _ w d Hfile E).
Qed.

Lemma report_transactions_result :
  let r := section_result title_transactions
             (fun rows =>
                section_body no_transactions (transaction_line repr_float)
                  (order_by_desc_limit tx_id rows))
             (transactions d) in
  report_transactions repr_float w
  = (outcome (snd r), emit (fst r) (logged SelectTransactions w)).
Proof.
  cbv zeta. destruct (transactions d) as [rows |] eqn:E.
  - apply (report_transactions_run repr_float w d Hfile rows E).
  - apply (section_no_table (q := SelectTransactions) _ _ w d Hfile).
    simpl. now rewrite E.
Qed.

Lemma report_activities_result :
  let r := section_result title_activities
             (fun rows =>
                section_body no_activities (activity_line repr_float)
                  (order_by_desc_limit act_id rows))
             (technician_activities d) in
  report_activities repr_float w
  = (outcome (snd r), emit (fst r) (logged SelectActivities w)).
Proof.
  cbv zeta. destruct (technician_activities d) as [rows |] eqn:E.
  - apply (report_activities_run repr_float w d Hfile rows E).
  - apply (section_no_table (q := SelectActivities) _ _ w d Hfile).
    simpl. now rewrite E.
Qed.

End SectionResults.

Ltac now_same_world := rewrite <- ?app_assoc; reflexivity.

(** The script in any world whose file can be opened: whatever the
    connection, the statements executed before and the output printed
    before, it connects and goes through the sections, adding to what
    was executed and printed. *)
Lemma script_in_sequence repr_float (w : world) (d : database) :
  file w = Some d ->
  script repr_float w
  = let '(out, e, k) := in_sequence (section_results repr_float d) in
    (outcome e,
     mkWorld (Some d)
       match e with None => Closed | Some _ => Open end
       (executed w ++ firstn k all_statements) (stdout w ++ out)).
Proof.
  intros Hf. destruct w as [fw c ex so]. cbn [file] in Hf. subst fw.
  cbn [executed stdout].
  assert (Hc : connect (mkWorld (Some d) c ex so)
               = (Ok tt, mkWorld (Some d) Open ex so)) by reflexivity.
  unfold script. rewrite (bind_ok _ _ _ _ _ Hc). clear Hc.
  unfold section_results.
  pose proof (report_credentials_result repr_float
                (mkWorld (Some d) Open ex so) d eq_refl) as E1.
  cbv zeta in E1. rewrite emit_logged in E1.
  rewrite (bind_outcome _ _ _ _ _ E1). clear E1.
  destruct (section_result title_credentials _ _) as [o1 [e1 |]];
    cbn [fst snd in_sequence outcome]; [now_same_world |].
  match goal with |- bind _ _ ?w = _ =>
    pose proof (report_accounts_result repr_float w d eq_refl) as E2 end.
  cbv zeta in E2. rewrite emit_logged in E2.
  rewrite (bind_outcome _ _ _ _ _ E2). clear E2.
  destruct (section_result title_accounts _ _) as [o2 [e2 |]];
    cbn [fst snd in_sequence outcome]; [now_same_world |].
  match goal with |- bind _ _ ?w = _ =>
    pose proof (report_atm_state_result w d eq_refl) as E3 end.
  cbv zeta in E3. rewrite emit_logged in E3.
  rewrite (bind_outcome _ _ _ _ _ E3). clear E3.
  destruct (section_result title_atm_state _ _) as [o3 [e3 |]];
    cbn [fst snd in_sequence outcome]; [now_same_world |].
  match goal with |- bind _ _ ?w = _ =>
    pose proof (report_transactions_result repr_float w d eq_refl) as E4 end.
  cbv zeta in E4. rewrite emit_logged in E4.
  rewrite (bind_outcome _ _ _ _ _ E4). clear E4.
  destruct (section_result title_transactions _ _) as [o4 [e4 |]];
    cbn [fst snd in_sequence outcome]; [now_same_world |].
  match goal with |- bind _ _ ?w = _ =>
    pose proof (report_activities_result repr_float w d eq_refl) as E5 end.
  cbv zeta in E5. rewrite emit_logged in E5.
  rewrite (bind_outcome _ _ _ _ _ E5). clear E5.
  destruct (section_result title_activities _ _) as [o5 [e5 |]];
    cbn [fst snd in_sequence outcome]; [now_same_world |].
  unfold close. cbn [file conn executed stdout].
  rewrite app_nil_r, <- !app_assoc. reflexivity.
Qed.

(** The run on an openable file, section by section. *)
Lemma run_in_sequence repr_float (d : database) :
  run repr_float (Some d)
  = let '(out, e, k) := in_sequence (section_results repr_float d) in
    (outcome e,
     mkWorld (Some d)
       match e with None => Closed | Some _ => Open end
       (firstn k all_statements) out).
Proof.
  unfold run.
  rewrite (script_in_sequence repr_float (start (Some d)) d eq_refl).
  reflexivity.
Qed.

(** X13: what a run does, in every case.  When the file cannot be
    opened it raises [OperationalError] at once, with nothing printed
    and nothing executed.  Otherwise the sections run in order up to the
    first that raises; the run prints what they print, one after the
    other, has executed one statement per section entered, and ends with
    the exception of that section and the connection open, or, when no
    section raises, completes with the connection closed. *)
Theorem run_section_by_section repr_float (f : option database) :
  run repr_float f
  = match f with
    | None => (Raised OperationalError, mkWorld None NotConnected [] [])
    | Some d =>
        let '(out, e, k) := in_sequence (section_results repr_float d) in
        (outcome e,
         mkWorld (Some d)
           match e with None => Closed | Some _ => Open end
           (firstn k all_statements) out)
    end.
Proof.
  destruct f as [d |]; [apply run_in_sequence | apply run_cannot_connect].
Qed.

(** *** Headings in every run *)

Lemma section_result_headings {A} (title : string)
    (body : list A -> list string * option exn) (t : option (list A)) :
  filter is_heading (heading title) = heading title ->
  (forall rows, Forall (fun s => is_heading s = false) (fst (body rows))) ->
  filter is_heading (fst (section_result title body t)) = heading title.
Proof.
  intros Hh Hb. destruct t as [rows |]; cbn [section_result fst];
    [| exact Hh].
  rewrite filter_app, Hh, (filter_none _ _ (Hb rows)).
  apply app_nil_r.
Qed.

Lemma section_results_headings repr_float (d : database) :
  Forall2 (fun r title => filter is_heading (fst r) = heading title)
    (section_results repr_float d) titles.
Proof.
  unfold section_results, titles.
  repeat (constructor;
          [apply section_result_headings; [reflexivity | intros rows] |]).
  - apply section_body_forall;
      [reflexivity | apply credential_line_not_heading].
  - apply render_forall, account_line_not_heading'.
  - apply render_forall, machine_state_line_not_heading.
  - apply section_body_forall;
      [reflexivity | apply transaction_line_not_heading].
  - apply section_body_forall;
      [reflexivity | apply activity_line_not_heading].
  - constructor.
Qed.

Lemma in_sequence_headings (parts : list (list string * option exn))
    (ts : list string) :
  Forall2 (fun r title => filter is_heading (fst r) = heading title)
    parts ts ->
  let '(out, e, k) := in_sequence parts in
  filter is_heading out = List.concat (map heading (firstn k ts))
  /\ (k <= List.length ts)%nat
  /\ (e = None -> k = List.length ts).
Proof.
  induction 1 as [| [o [e |]] t parts ts Hr _ IH]; cbn [in_sequence].
  - repeat split; constructor.
  - cbn [fst] in Hr. cbn [firstn map List.concat List.length].
    rewrite app_nil_r. repeat split; [exact Hr | lia | discriminate].
  - cbn [fst] in Hr. destruct (in_sequence parts) as [[out e] k].
    destruct IH as (Hout & Hk & He).
    cbn [firstn map List.concat List.length].
    rewrite filter_app, Hr, Hout.
    repeat split; [lia | intros E; now rewrite (He E)].
Qed.

(** X14: in every run, completed or not, the headings printed are those
    of the sections entered, each once, in the order credentials,
    accounts, ATM state, transactions, activities; a run that completes
    has printed all five. *)
Theorem headings_in_every_run repr_float (f : option database) :
  exists k,
    (k <= 5)%nat
    /\ filter is_heading (stdout (snd (run repr_float f)))
        = List.concat (map heading (firstn k titles))
    /\ (fst (run repr_float f) = Ok tt -> k = 5%nat).
Proof.
  destruct f as [d |].
  - rewrite run_in_sequence.
    pose proof (in_sequence_headings _ _
                  (section_results_headings repr_float d)) as H.
    destruct (in_sequence (section_results repr_float d)) as [[out e] k].
    destruct H as (Hout & Hk & He).
    exists k. cbn [fst snd stdout]. repeat split; [exact Hk | exact Hout |].
    intros E. apply He. destruct e; [discriminate E | reflexivity].
  - exists 0%nat. rewrite run_cannot_connect.
    repeat split; [lia | discriminate].
Qed.

(* ===================================================================== *)
(** ** What the output of a run depends on *)
(* ===================================================================== *)








(* ===================================================================== *)
(** ** The further properties on sample values *)
(* ===================================================================== *)

(** 1234 is printed [1,234], and 999 as it is. *)
Lemma grouping_by_thousands_sample :
  "1" <> EmptyString
  /\ (String.length "999" <= 3)%nat
  /\ group3 "999" = "999"
  /\ group3 "1234" = "1,234".
Proof.
  assert (H1 : "1" <> EmptyString) by discriminate.
  assert (H3 : (String.length "999" <= 3)%nat)
    by (apply Nat.leb_le; reflexivity).
  split; [exact H1 |]. split; [exact H3 |].
  split; [exact (proj1 grouping_by_thousands "999" H3) |].
  exact (proj2 grouping_by_thousands "1" "2"%char "3"%char "4"%char H1).
Defined.

(** 0.125 lies between 12 and 13 hundredths and is printed with 12. *)
Lemma two_decimals_nearest_sample :
  -3 < 0
  /\ hundredths 1 (-3) = 12%N
  /\ (2 * ((1 * 100) mod 2 ^ Z.to_N (- -3)) = 2 ^ Z.to_N (- -3))%N
  /\ N.even (hundredths 1 (-3)) = true.
Proof.
  assert (H : -3 < 0) by reflexivity.
  split; [exact H |]. split; [reflexivity |]. split; [reflexivity |].
  exact (proj2 (proj2 (proj2 (two_decimals_nearest 1 (-3)) H)) eq_refl).
Defined.

(** The INTEGER 2500 is printed like the REAL 2500.0. *)
Lemma integer_amount_prints_00_sample :
  Z.abs 2500 < 2 ^ 53
  /\ format_f2 10 true (VInt 2500) = Ok "  2,500.00".
Proof.
  assert (H : Z.abs 2500 < 2 ^ 53) by reflexivity.
  split; [exact H |].
  exact (proj1 (integer_amount_prints_00 10 true 2500 H)).
Defined.


(** The accounts loop on Alice's account, a nameless account and Alice's
    again prints one line and raises. *)
Lemma loop_stops_at_first_error_sample :
  Forall2 (fun r line => account_line repr_float_unused r = Ok line)
    [ alice ]
    [ "Account #: 100001 | Name: Alice           | Balance: $  2,500.00 | PIN: 1234" ]
  /\ account_line repr_float_unused nameless = Raised TypeError
  /\ for_each ([ alice ] ++ nameless :: [ alice ])
       (fun r => line <- eval (account_line repr_float_unused r) ;;
                 print line)
       scenario_world
     = (Raised TypeError,
        emit [ "Account #: 100001 | Name: Alice           | Balance: $  2,500.00 | PIN: 1234" ]
          scenario_world).
Proof.
  assert (Hg : Forall2
                 (fun r line => account_line repr_float_unused r = Ok line)
                 [ alice ]
                 [ "Account #: 100001 | Name: Alice           | Balance: $  2,500.00 | PIN: 1234" ])
    by (constructor; [reflexivity | constructor]).
  assert (Hb : account_line repr_float_unused nameless = Raised TypeError)
    by reflexivity.
  split; [exact Hg |]. split; [exact Hb |].
  exact (loop_stops_at_first_error (account_line repr_float_unused)
           [ alice ] nameless [ alice ] _ TypeError scenario_world Hg Hb).
Defined.

(** The accounts section of the end-to-end scenario prints Alice's
    line. *)
Lemma every_row_printed_sample :
  file scenario_world = Some scenario_database
  /\ accounts scenario_database = Some [ alice ]
  /\ forallb account_ok [ alice ] = true
  /\ exists lines,
       report_accounts repr_float_unused scenario_world
       = (Ok tt, emit (heading title_accounts ++ lines)
                   (logged SelectAccounts scenario_world))
       /\ Forall2 (fun r line => account_line repr_float_unused r = Ok line)
            [ alice ] lines.
Proof.
  split; [reflexivity |]. split; [reflexivity |]. split; [reflexivity |].
  exact (proj1 (every_row_printed repr_float_unused scenario_world
                  scenario_database eq_refl)
           [ alice ] eq_refl eq_refl).
Defined.

(** On a file without tables the credentials section prints its heading
    and raises. *)
Lemma missing_table_raises_sample :
  file blank_world = Some blank_file
  /\ technician_credentials blank_file = None
  /\ report_credentials repr_float_unused blank_world
     = (Raised OperationalError,
        emit (heading title_credentials)
          (logged SelectCredentials blank_world)).
Proof.
  split; [reflexivity |]. split; [reflexivity |].
  exact (proj1 (missing_table_raises repr_float_unused blank_world
                  blank_file eq_refl) eq_refl).
Defined.

(** Three deposits stored in two different orders. *)
Lemma storage_order_irrelevant_sample :
  NoDup (map tx_id [ deposit 1; deposit 3; deposit 2 ])
  /\ Permutation [ deposit 1; deposit 3; deposit 2 ]
       [ deposit 2; deposit 1; deposit 3 ]
  /\ order_by_desc_limit tx_id [ deposit 1; deposit 3; deposit 2 ]
     = order_by_desc_limit tx_id [ deposit 2; deposit 1; deposit 3 ].
Proof.
  assert (Hn : NoDup (map tx_id [ deposit 1; deposit 3; deposit 2 ])).
  { repeat constructor; simpl; intuition discriminate. }
  assert (Hp : Permutation [ deposit 1; deposit 3; deposit 2 ]
                 [ deposit 2; deposit 1; deposit 3 ]).
  { eapply perm_trans; [apply perm_skip, perm_swap |]. apply perm_swap. }
  split; [exact Hn |]. split; [exact Hp |].
  exact (storage_order_irrelevant tx_id _ _ Hn Hp).
Defined.

